(** * autocrop: the crop-geometry engine of [autocrop/autocrop.py]

    A shallow embedding of the [Cropper] class: its constructor with the
    two validators, the three expansion routines, the orchestrator
    [_crop_positions] and the driver [crop].

    Conventions of the embedding.
    - Python integers (and the integer entries of the detector's boxes)
      are [Z].
    - Python floats are exact rationals [Q]: [a / b] under
      [from __future__ import division] is the rational quotient and
      [int(...)] truncates toward zero.  The program's doubles round:
      a quotient of two integers below 2^53 by an integer truncates to
      the same integer, but a stored quotient such as 700 / 300 is not
      the rational 7 / 3, and a double can overflow or underflow.  A
      property that depends on such a value takes the operation as a
      parameter or leaves the value out.
    - A call that can raise returns a [result]; the exception classes the
      program meets are the constructors of [exc].
    - The names bound by [from .constants import ...] and the [cv2],
      [numpy], [PIL] and [os] calls are parameters of the section. *)

From Stdlib Require Import ZArith QArith Qabs Qminmax List String Bool Lia
  Lqa.
Import ListNotations.
Local Open Scope string_scope.
Local Open Scope Z_scope.

(** ** Exceptions and the error monad *)

Inductive exc : Type :=
| BaseException
| Exception
| ArithmeticError
| ZeroDivisionError
| AssertionError
| AttributeError
| LookupError
| IndexError
| KeyError
| NameError
| TypeError
| ValueError
| OSError
| cv2_error
| ImageReadError.

(** The base class of each exception class.  [ImageReadError] is declared
    [class ImageReadError(BaseException)]. *)
Definition exc_base (e : exc) : option exc :=
  match e with
  | BaseException => None
  | Exception => Some BaseException
  | ImageReadError => Some BaseException
  | ZeroDivisionError => Some ArithmeticError
  | KeyError => Some LookupError
  | IndexError => Some LookupError
  | _ => Some Exception
  end.

Definition exc_eqb (a b : exc) : bool :=
  match a, b with
  | BaseException, BaseException | Exception, Exception
  | ArithmeticError, ArithmeticError | ZeroDivisionError, ZeroDivisionError
  | AssertionError, AssertionError | AttributeError, AttributeError
  | LookupError, LookupError | KeyError, KeyError | IndexError, IndexError
  | NameError, NameError | TypeError, TypeError | ValueError, ValueError
  | OSError, OSError | cv2_error, cv2_error
  | ImageReadError, ImageReadError => true
  | _, _ => false
  end.

Fixpoint issubclass_upto (depth : nat) (e c : exc) : bool :=
  exc_eqb e c ||
  match depth, exc_base e with
  | S d, Some p => issubclass_upto d p c
  | _, _ => false
  end.

(** No chain of bases is longer than four classes. *)
Definition issubclass : exc -> exc -> bool := issubclass_upto 4.

Inductive result (A : Type) : Type :=
| Ok (a : A)
| Raise (e : exc).
Arguments Ok {A} a.
Arguments Raise {A} e.

Definition bind {A B} (m : result A) (k : A -> result B) : result B :=
  match m with
  | Ok a => k a
  | Raise e => Raise e
  end.

Notation "x <- m ;; k" := (bind m (fun x => k))
  (at level 61, m at next level, right associativity).
Notation "' pat <- m ;; k" := (bind m (fun x => match x with pat => k end))
  (at level 61, pat pattern, m at next level, right associativity).

(** [try: body  except cls: handler] *)
Definition try_except {A} (body : result A) (cls : exc) (handler : result A)
  : result A :=
  match body with
  | Ok a => Ok a
  | Raise e => if issubclass e cls then handler else Raise e
  end.

(** ** Values *)

#[warnings="-register-all"]
Inductive pyval : Type :=
| VNone
| VBool (b : bool)
| VInt (z : Z)
| VFloat (q : Q)
| VStr (s : string)
| VDict (items : list (string * pyval)).

(** A dictionary lists its items in insertion order; its keys are strings
    and pairwise distinct. *)

(** Truth value of an object, as [if obj:] takes it. *)
Definition truthy (v : pyval) : bool :=
  match v with
  | VNone => false
  | VBool b => b
  | VInt z => negb (z =? 0)
  | VFloat q => negb (Qeq_bool q 0)
  | VStr s => negb (String.eqb s "")
  | VDict items => negb (Nat.eqb (List.length items) 0)
  end.

(** The number an object stands for in arithmetic and in ordering
    comparisons; the other objects raise [TypeError] there. *)
Definition as_number (v : pyval) : result Q :=
  match v with
  | VBool b => Ok (inject_Z (Z.b2z b))
  | VInt z => Ok (inject_Z z)
  | VFloat q => Ok q
  | _ => Raise TypeError
  end.

Definition Qgtb (a b : Q) : bool := negb (Qle_bool a b).

(** [int(q)] on a float: truncation toward zero. *)
Definition Qtrunc (q : Q) : Z := Z.quot (Qnum q) (Zpos (Qden q)).

(** [a / b] on floats. *)
Definition truediv (a b : Q) : result Q :=
  if Qeq_bool b 0 then Raise ZeroDivisionError else Ok (a / b)%Q.

(** [int(a / b)] on two integers. *)
Definition int_truediv (a b : Z) : result Z :=
  q <- truediv (inject_Z a) (inject_Z b) ;; Ok (Qtrunc q).

(** [isinstance(v, int)]: [bool] is a subclass of [int]. *)
Definition isinstance_int (v : pyval) : bool :=
  match v with VInt _ | VBool _ => true | _ => false end.

Definition isinstance_str (v : pyval) : bool :=
  match v with VStr _ => true | _ => false end.

Definition isinstance_dict (v : pyval) : bool :=
  match v with VDict _ => true | _ => false end.

(** [np.isscalar(v)] *)
Definition np_isscalar (v : pyval) : bool :=
  match v with
  | VBool _ | VInt _ | VFloat _ | VStr _ => true
  | VNone | VDict _ => false
  end.

(** [v > n] for an integer literal [n]. *)
Definition gt_int (v : pyval) (n : Z) : result bool :=
  q <- as_number v ;; Ok (Qgtb q (inject_Z n)).

(** [int(v)] on a number. *)
Definition py_int (v : pyval) : result Z :=
  q <- as_number v ;; Ok (Qtrunc q).

(** ** The validators *)

Definition check_positive_scalar (num : pyval) : result Z :=
  pos <- gt_int num 0 ;;
  if pos && negb (isinstance_str num) && np_isscalar num
  then py_int num
  else Raise ValueError.

Definition valid_keys : list string :=
  ["pad_top"; "pad_right"; "pad_bottom"; "pad_left"].

Definition mem_str (s : string) (l : list string) : bool :=
  existsb (String.eqb s) l.

(** [set(a) == set(b)] *)
Definition same_set (a b : list string) : bool :=
  forallb (fun s => mem_str s b) a && forallb (fun s => mem_str s a) b.

(** [len(obj)] *)
Definition py_len (v : pyval) : result Z :=
  match v with
  | VStr s => Ok (Z.of_nat (String.length s))
  | VDict items => Ok (Z.of_nat (List.length items))
  | _ => Raise TypeError
  end.

(** [obj.keys()] and [obj.values()] exist on dictionaries only. *)
Definition dict_keys (v : pyval) : result (list string) :=
  match v with
  | VDict items => Ok (map fst items)
  | _ => Raise AttributeError
  end.

Definition dict_values (v : pyval) : result (list pyval) :=
  match v with
  | VDict items => Ok (map snd items)
  | _ => Raise AttributeError
  end.

(** [all(check_positive_scalar(n) for n in values)]: the generator is
    consumed in order and stops at the first falsy element; an exception
    of [check_positive_scalar] leaves [all]. *)
Fixpoint all_positive (values : list pyval) : result bool :=
  match values with
  | [] => Ok true
  | n :: rest =>
      k <- check_positive_scalar n ;;
      if k =? 0 then Ok false else all_positive rest
  end.

Definition check_valid_pad_dict (dic : pyval) : result pyval :=
  let c1 := isinstance_dict dic in
  n <- py_len dic ;;
  let c2 := n =? 4 in
  keys <- dict_keys dic ;;
  let c3 := same_set keys valid_keys in
  values <- dict_values dic ;;
  c4 <- all_positive values ;;
  if negb (forallb (fun c => c) [c1; c2; c3; c4])
  then Raise ValueError
  else Ok dic.

(** [dic[key]] on a dictionary whose keys are strings. *)
Fixpoint getitem (items : list (string * pyval)) (key : string)
  : option pyval :=
  match items with
  | [] => None
  | (k, v) :: rest => if String.eqb k key then Some v else getitem rest key
  end.

Definition subscript (dic : pyval) (key : string) : result pyval :=
  match dic with
  | VDict items =>
      match getitem items key with
      | Some v => Ok v
      | None => Raise KeyError
      end
  | _ => Raise TypeError
  end.

(** ** The engine object *)

Record Cropper : Type := mkCropper {
  height : Z;
  width : Z;
  aspect_ratio : Q;
  gamma : pyval;
  portrait : pyval;
  face_percent : Z;
  pad_top : pyval;
  pad_right : pyval;
  pad_bottom : pyval;
  pad_left : pyval
}.

(** The arguments of [Cropper(...)], defaults filled in by [default_args]. *)
Record init_args : Type := mkArgs {
  arg_width : pyval;
  arg_height : pyval;
  arg_face_percent : pyval;
  arg_padding : pyval;
  arg_fix_gamma : pyval;
  arg_portrait : pyval
}.

Definition default_args : init_args :=
  {| arg_width := VInt 500;
     arg_height := VInt 500;
     arg_face_percent := VInt 50;
     arg_padding := VNone;
     arg_fix_gamma := VBool true;
     arg_portrait := VBool true |}.

(** [Cropper.__init__].  The last two statements of the source only build
    the path of the cascade file and are left out. *)
Definition Cropper_init (a : init_args) : result Cropper :=
  self_height <- check_positive_scalar (arg_height a) ;;
  self_width <- check_positive_scalar (arg_width a) ;;
  wq <- as_number (arg_width a) ;;
  hq <- as_number (arg_height a) ;;
  self_aspect_ratio <- truediv wq hq ;;
  too_big <- gt_int (arg_face_percent a) 100 ;;
  if too_big then Raise ValueError else
  self_face_percent <- check_positive_scalar (arg_face_percent a) ;;
  if isinstance_int (arg_padding a) then
    pad <- check_positive_scalar (arg_padding a) ;;
    Ok (mkCropper self_height self_width self_aspect_ratio
          (arg_fix_gamma a) (arg_portrait a) self_face_percent
          (VInt pad) (VInt pad) (VInt pad) (VInt pad))
  else
    pad <- check_valid_pad_dict (arg_padding a) ;;
    t <- subscript pad "pad_top" ;;
    r <- subscript pad "pad_right" ;;
    b <- subscript pad "pad_bottom" ;;
    l <- subscript pad "pad_left" ;;
    Ok (mkCropper self_height self_width self_aspect_ratio
          (arg_fix_gamma a) (arg_portrait a) self_face_percent
          t r b l).

(** ** The module namespace

    [_crop_positions] reads four names that are neither parameters nor
    locals: [padding], [imgw], [imgh] and [aspect_ratio].  Python looks
    them up in the module's global namespace when the statement runs and
    raises [NameError] for a name that is not bound there.  A namespace
    records, for each of the four, the object it is bound to. *)

Record namespace : Type := mkNamespace {
  g_padding : option pyval;
  g_imgw : option Z;
  g_imgh : option Z;
  g_aspect_ratio : option Q
}.

(** The names [autocrop.py] binds at module level are those of its
    imports ([cv2], [np], [os], [sys], [Image], [MINFACE], [GAMMA_THRES],
    [GAMMA], [CV2_FILETYPES], [PILLOW_FILETYPES], [CASCFILE],
    [EYES_RATIO], [print_function], [division]), [COMBINED_FILETYPES],
    [INPUT_FILETYPES], [ImageReadError], [bgr_to_rbg], [gamma],
    [check_underexposed], [check_positive_scalar], [check_valid_pad_dict],
    [open_file] and [Cropper]; none of the four is among them, nor a
    builtin. *)
Definition module_namespace : namespace :=
  {| g_padding := None; g_imgw := None; g_imgh := None;
     g_aspect_ratio := None |}.

Definition load_global {A} (binding : option A) : result A :=
  match binding with
  | Some v => Ok v
  | None => Raise NameError
  end.

(** [assert cond] *)
Definition assert (cond : bool) : result unit :=
  if cond then Ok tt else Raise AssertionError.

(** [_apply_padding] is declared with no parameter at all; called as
    [self._apply_padding()] it receives one positional argument. *)
Definition _apply_padding (positional : nat) : result (option (list Z)) :=
  match positional with
  | O => Ok None
  | S _ => Raise TypeError
  end.

Section Geometry.

(** [EYES_RATIO] comes from [constants.py], which is not among the
    sources. *)
Variable EYES_RATIO : Q.

Variable self : Cropper.

Definition _expand_centered (x w imgw : Z) (expected_width : option Z)
  : result (Z * Z * bool) :=
  i <- int_truediv w 2 ;;
  j <- int_truediv i (face_percent self) ;;
  let center := x + i in
  let h1 := center - j in
  let h2 := center + j in
  match expected_width with
  | Some ew =>
      half <- int_truediv ew 2 ;;
      let h1 := center - half in
      let h2 := center + half in
      Ok (h1, h2, true)
  | None =>
      let expectations_met := true in
      let '(h1, h2, expectations_met) :=
        if h1 <? 0 then (0, 2 * center, false)
        else (h1, h2, expectations_met) in
      let '(h1, h2, expectations_met) :=
        if h2 >? imgw then (2 * center - imgw, imgw, false)
        else (h1, h2, expectations_met) in
      Ok (h1, h2, expectations_met)
  end.

Definition _expand_portrait (y h imgh expected_height : Z)
  : result (Z * Z * bool) :=
  let eye_height := y + Qtrunc (EYES_RATIO * inject_Z h) in
  third <- int_truediv expected_height 3 ;;
  let v1 := eye_height - 2 * third in
  let v2 := eye_height + third in
  let expectations_met := true in
  let '(v1, v2, expectations_met) :=
    if v1 <? 0 then (0, Qtrunc ((3 # 2) * inject_Z eye_height), false)
    else (v1, v2, expectations_met) in
  let '(v1, v2, expectations_met) :=
    if v2 >? imgh then (eye_height - 2 * (imgh - eye_height), imgh, false)
    else (v1, v2, expectations_met) in
  Ok (v1, v2, expectations_met).

Variable G : namespace.

(** The three composition branches of [_crop_positions]. *)
Inductive mode : Type := Padded | Portrait | Centered.

(** Lines 405 to 411: which branch a call enters. *)
Definition select_mode : result mode :=
  padding <- load_global (g_padding G) ;;
  if truthy padding then Ok Padded else
  let tall := if width self >? height self then true else false in
  if tall && truthy (portrait self) then Ok Portrait else Ok Centered.

(** The locals of the portrait branch when it reaches its [assert]. *)
Record portrait_locals : Type := mkLocals {
  l_h1 : Z; l_h2 : Z; l_v1 : Z; l_v2 : Z;
  use_w : bool; use_h : bool
}.

Definition portrait_pass (x y w h : Z) : result portrait_locals :=
  imgw <- load_global (g_imgw G) ;;
  '(h1, h2, use_face_percent_w) <- _expand_centered x w imgw None ;;
  expected_height <-
    (if negb use_face_percent_w
     then q <- truediv (inject_Z (h2 - h1)) (aspect_ratio self) ;;
          Ok (Qtrunc q)
     else q <- truediv (inject_Z w) (aspect_ratio self) ;;
          Ok (Qtrunc q)) ;;
  imgh <- load_global (g_imgh G) ;;
  '(v1, v2, use_face_percent_h) <- _expand_portrait y h imgh expected_height ;;
  if negb use_face_percent_h then
    let expected_width := 0 (* int() *) in
    imgw <- load_global (g_imgw G) ;;
    '(h1, h2, use_face_percent_w) <-
      _expand_centered x w imgw (Some expected_width) ;;
    Ok (mkLocals h1 h2 v1 v2 use_face_percent_w use_face_percent_h)
  else
    Ok (mkLocals h1 h2 v1 v2 use_face_percent_w use_face_percent_h).

Definition portrait_branch (x y w h : Z) : result (option (list Z)) :=
  st <- portrait_pass x y w h ;;
  _ <- assert (forallb (fun v => v) [use_w st; use_h st]) ;;
  Ok (Some [l_h1 st; l_h2 st; l_v1 st; l_v2 st]).

(** [max(a, b)] and [abs(a)] on floats. *)
Definition py_max (a b : Q) : Q := if Qgtb b a then b else a.
Definition py_abs (a : Q) : Q := Qabs a.

Definition centered_branch (img_height img_width x y w h : Z)
  : result (option (list Z)) :=
  height_crop <-
    truediv (inject_Z h * 100) (inject_Z (face_percent self)) ;;
  ar <- load_global (g_aspect_ratio G) ;;
  let width_crop := (ar * height_crop)%Q in
  let xpad := ((width_crop - inject_Z w) / 2)%Q in
  let ypad := ((height_crop - inject_Z h) / 2)%Q in
  pl <- as_number (pad_left self) ;;
  pr <- as_number (pad_right self) ;;
  a <- truediv (xpad * pl) (pl + pr) ;;
  let h1 := (inject_Z x - a)%Q in
  a <- truediv (xpad * pr) (pl + pr) ;;
  let h2 := (inject_Z x + inject_Z w + a)%Q in
  pt <- as_number (pad_top self) ;;
  pb <- as_number (pad_bottom self) ;;
  a <- truediv (ypad * pt) (pt + pb) ;;
  let v1 := (inject_Z y - a)%Q in
  a <- truediv (ypad * pb) (pt + pb) ;;
  let v2 := (inject_Z y + inject_Z h + a)%Q in
  left_pad_ratio <- truediv pl (pl + pr) ;;
  right_pad_ratio <- truediv pl (pl + pr) ;;
  top_pad_ratio <- truediv pt (pt + pb) ;;
  bottom_pad_ratio <- truediv pb (pt + pb) ;;
  let delta_h := 0%Q in
  delta_h <-
    (if Qgtb 0 h1 then truediv (py_abs h1) left_pad_ratio
     else Ok delta_h) ;;
  delta_h <-
    (if Qgtb h2 (inject_Z img_width)
     then d <- truediv (h2 - inject_Z img_width) right_pad_ratio ;;
          Ok (py_max delta_h d)
     else Ok delta_h) ;;
  delta_v <-
    (if Qle_bool delta_h 0 then Ok 0%Q
     else ar <- load_global (g_aspect_ratio G) ;; truediv delta_h ar) ;;
  delta_v <-
    (if Qgtb 0 v1
     then d <- truediv (py_abs v1) top_pad_ratio ;; Ok (py_max delta_v d)
     else Ok delta_v) ;;
  delta_v <-
    (if Qgtb v2 (inject_Z img_height)
     then d <- truediv (v2 - inject_Z img_height) bottom_pad_ratio ;;
          Ok (py_max delta_v d)
     else Ok delta_v) ;;
  ar <- load_global (g_aspect_ratio G) ;;
  let delta_h := py_max delta_h (delta_v * ar) in
  let h1 := (h1 + delta_h * left_pad_ratio)%Q in
  let h2 := (h2 - delta_h * right_pad_ratio)%Q in
  let v1 := (v1 + delta_v * top_pad_ratio)%Q in
  let v2 := (v2 - delta_v * bottom_pad_ratio)%Q in
  Ok (Some [Qtrunc v1; Qtrunc v2; Qtrunc h1; Qtrunc h2]).

Definition _crop_positions (img_height img_width x y w h : Z)
  : result (option (list Z)) :=
  m <- select_mode ;;
  match m with
  | Padded => _apply_padding 1
  | Portrait => portrait_branch x y w h
  | Centered => centered_branch img_height img_width x y w h
  end.

End Geometry.

(** ** The driver [crop] and its collaborators *)

Section Driver.

Variable EYES_RATIO : Q.
Variables CV2_FILETYPES PILLOW_FILETYPES : list string.

(** Pixel arrays are opaque; only their [shape] tuple is read. *)
Variable ndarray : Type.
Variable shape : ndarray -> list Z.

(** An object that reaches [crop]: a pixel array, or a plain value,
    which has no [shape] attribute. *)
Inductive pyobj : Type :=
| Arr (a : ndarray)
| Val (v : pyval).

(** [os.path.splitext(name)[1].lower()] *)
Variable splitext_lower : string -> string.
(** [cv2.imread] returns [None] for a file it cannot decode. *)
Variable cv2_imread : string -> option ndarray.
(** [Image.open] followed by [np.asarray]. *)
Variable pil_open : string -> result ndarray.
Variable cv2_cvtColor : pyobj -> result ndarray.
(** [int(np.sqrt(img_height ** 2 + img_width ** 2) / MINFACE)] *)
Variable minface_of : Z -> Z -> Z.
(** The cascade classifier: boxes [(x, y, w, h)]. *)
Variable detectMultiScale : pyobj -> Z -> result (list (Z * Z * Z * Z)).
(** [image[a:b, c:d]], [cv2.resize], [check_underexposed], [bgr_to_rbg] *)
Variable slice2 : ndarray -> Z -> Z -> Z -> Z -> ndarray.
Variable cv2_resize : ndarray -> Z -> Z -> result ndarray.
Variable check_underexposed : ndarray -> pyobj -> result ndarray.
Variable bgr_to_rbg : ndarray -> ndarray.

Definition open_file (input_filename : string) : result pyobj :=
  let extension := splitext_lower input_filename in
  if mem_str extension CV2_FILETYPES then
    match cv2_imread input_filename with
    | Some a => Ok (Arr a)
    | None => Ok (Val VNone)
    end
  else if mem_str extension PILLOW_FILETYPES then
    a <- pil_open input_filename ;; Ok (Arr a)
  else Ok (Val VNone).

(** [image.shape] *)
Definition getattr_shape (image : pyobj) : result (list Z) :=
  match image with
  | Arr a => Ok (shape a)
  | Val _ => Raise AttributeError
  end.

(** [img_height, img_width = shp[:2]] *)
Definition unpack2 (shp : list Z) : result (Z * Z) :=
  match firstn 2 shp with
  | [a; b] => Ok (a, b)
  | _ => Raise ValueError
  end.

(** [pos[i]] on the value returned by [_crop_positions]. *)
Definition index (pos : option (list Z)) (i : nat) : result Z :=
  match pos with
  | None => Raise TypeError
  | Some l =>
      match nth_error l i with
      | Some z => Ok z
      | None => Raise IndexError
      end
  end.

(** Lines 191 to 194: the image behind the argument. *)
Definition load_image (path_or_array : pyobj) : result pyobj :=
  match path_or_array with
  | Val (VStr path) => open_file path
  | _ => Ok path_or_array
  end.

(** Lines 197 to 200. *)
Definition to_gray (image : pyobj) : result pyobj :=
  try_except (g <- cv2_cvtColor image ;; Ok (Arr g)) cv2_error (Ok image).

(** Lines 203 to 206. *)
Definition image_extent (image : pyobj) : result (Z * Z) :=
  try_except (shp <- getattr_shape image ;; unpack2 shp) AttributeError
             (Raise ImageReadError).

(** [image[a:b, c:d]]: a plain value is not subscriptable. *)
Definition getitem_slice (image : pyobj) (a b c d : Z) : result ndarray :=
  match image with
  | Arr arr => Ok (slice2 arr a b c d)
  | Val _ => Raise TypeError
  end.

(** [crop], with the method bound to [self._crop_positions] as a
    parameter. *)
Definition crop_with
    (positions : Z -> Z -> Z -> Z -> Z -> Z -> result (option (list Z)))
    (self : Cropper) (path_or_array : pyobj) : result (option ndarray) :=
  image <- load_image path_or_array ;;
  gray <- to_gray image ;;
  '(img_height, img_width) <- image_extent image ;;
  let minface := minface_of img_height img_width in
  faces <- detectMultiScale gray minface ;;
  if Nat.eqb (List.length faces) 0 then Ok None else
  let '(x, y, w, h) := last faces (0, 0, 0, 0) in
  pos <- positions img_height img_width x y w h ;;
  p0 <- index pos 0 ;;
  p1 <- index pos 1 ;;
  p2 <- index pos 2 ;;
  p3 <- index pos 3 ;;
  image <- getitem_slice image p0 p1 p2 p3 ;;
  image <- cv2_resize image (width self) (height self) ;;
  image <-
    (if truthy (gamma self) then check_underexposed image gray
     else Ok image) ;;
  Ok (Some (bgr_to_rbg image)).

(** [Cropper.crop], in the module namespace [G]. *)
Definition crop (G : namespace) (self : Cropper) (path_or_array : pyobj)
  : result (option ndarray) :=
  crop_with (_crop_positions EYES_RATIO self G) self path_or_array.

End Driver.

Arguments Arr {ndarray} a.
Arguments Val {ndarray} v.

(** ** A concrete engine and concrete collaborators *)

(** [Cropper(width, height, face_percent, padding)] on integers. *)
Definition int_args (w h fp pad : Z) : init_args :=
  {| arg_width := VInt w; arg_height := VInt h;
     arg_face_percent := VInt fp; arg_padding := VInt pad;
     arg_fix_gamma := VBool true; arg_portrait := VBool true |}.

Definition int_cropper (w h fp pad : Z) : Cropper :=
  mkCropper h w (inject_Z w / inject_Z h) (VBool true) (VBool true) fp
            (VInt pad) (VInt pad) (VInt pad) (VInt pad).

(** [Cropper(500, 500, 50, 50)] *)
Definition square_cropper : Cropper := int_cropper 500 500 50 50.
(** [Cropper(500, 250, 50, 50)]: wider than tall. *)
Definition wide_cropper : Cropper := int_cropper 500 250 50 50.
(** [Cropper(300, 500, 50, 50)]: taller than wide. *)
Definition tall_cropper : Cropper := int_cropper 300 500 50 50.

(** A namespace in which the four free names are bound the way the
    parameters of [_crop_positions] suggest. *)
Definition bound_namespace (self : Cropper) (img_height img_width : Z)
  : namespace :=
  {| g_padding := Some VNone;
     g_imgw := Some img_width;
     g_imgh := Some img_height;
     g_aspect_ratio := Some (aspect_ratio self) |}.

(** [Cropper(500, 500, 10, 50)] *)
Definition loose_cropper : Cropper := int_cropper 500 500 10 50.

(** The invariant of a crop rectangle [[top; bottom; left; right]], as
    [crop] reads the list returned by [_crop_positions]. *)
Definition contained (img_height img_width : Z) (pos : list Z) : Prop :=
  match pos with
  | [top; bottom; lft; rgt] =>
      0 <= top < bottom /\ bottom <= img_height /\
      0 <= lft < rgt /\ rgt <= img_width
  | _ => False
  end.

(** Stand-ins for the collaborators: an array is its shape tuple, every
    file has a [cv2] extension and none can be decoded, and the detector
    finds nothing. *)
Module Sample.
Definition EYES_RATIO : Q := 42 # 100.
Definition CV2_FILETYPES : list string := [".jpg"; ".png"].
Definition PILLOW_FILETYPES : list string := [".gif"].
Definition ndarray : Type := list Z.
Definition shape (a : ndarray) : list Z := a.
Definition splitext_lower (name : string) : string := ".jpg".
Definition cv2_imread (name : string) : option ndarray := None.
Definition pil_open (name : string) : result ndarray := Raise OSError.
Definition cv2_cvtColor (image : pyobj ndarray) : result ndarray :=
  match image with
  | Arr a => Ok (firstn 2 a)
  | Val _ => Raise cv2_error
  end.
Definition minface_of (img_height img_width : Z) : Z := 1.
Definition detectMultiScale (gray : pyobj ndarray) (minface : Z)
  : result (list (Z * Z * Z * Z)) := Ok [].
Definition slice2 (a : ndarray) (t b l r : Z) : ndarray := [b - t; r - l].
Definition cv2_resize (a : ndarray) (w h : Z) : result ndarray :=
  Ok [h; w].
Definition check_underexposed (a : ndarray) (gray : pyobj ndarray)
  : result ndarray := Ok a.
Definition bgr_to_rbg (a : ndarray) : ndarray := a.
End Sample.

(** ** Raster helpers: [bgr_to_rbg] and [check_underexposed] *)

Module Raster.

(** An array of [n] dimensions, as lists nested [n] deep. *)
Fixpoint nd (n : nat) : Type :=
  match n with
  | O => Z
  | S k => list (nd k)
  end.

(** [img[..., ::-1]] on an array of [k + 1] dimensions: the last axis
    reversed. *)
Fixpoint flip_last (k : nat) : nd (S k) -> nd (S k) :=
  match k return nd (S k) -> nd (S k) with
  | O => fun img => rev img
  | S j => fun img => map (flip_last j) img
  end.

(** [bgr_to_rbg]: [len(img.shape)] is the number [n] of dimensions; an
    array without dimension cannot be indexed by [..., ::-1]. *)
Definition bgr_to_rbg (n : nat) : nd n -> result (nd n) :=
  match n return nd n -> result (nd n) with
  | O => fun img => Raise IndexError
  | S O => fun img => Ok img
  | S (S k) => fun img => Ok (flip_last (S k) img)
  end.

(** [l[-n:]] *)
Definition last_n {A} (n : nat) (l : list A) : list A :=
  skipn (List.length l - n) l.

(** [sum(l)]: from 0, left to right. *)
Definition py_sum (l : list Q) : Q := fold_left Qplus l 0%Q.

Section Exposure.

(** [GAMMA_THRES] and [GAMMA] come from [constants.py]. *)
Variables GAMMA_THRES GAMMA : Q.
Variables image gray_image : Type.
(** [cv2.calcHist([gray], [0], None, [256], [0, 256])]: the number of
    pixels at each of the 256 levels. *)
Variable calcHist : gray_image -> list Q.
(** [gamma(img, correction)], a power with a float exponent. *)
Variable gamma : image -> Q -> image.

Definition check_underexposed (img : image) (gray : gray_image) : image :=
  let uexp := calcHist gray in
  if Qgtb (GAMMA_THRES * py_sum uexp) (py_sum (last_n 26 uexp))
  then gamma img GAMMA
  else img.

End Exposure.

End Raster.

(** Two more stand-ins: a detector that finds one face, and file names
    that all end in [.gif]. *)
Module Sample2.
Definition detectMultiScale (gray : pyobj Sample.ndarray) (minface : Z)
  : result (list (Z * Z * Z * Z)) := Ok [(400, 400, 200, 200)].
Definition splitext_lower (name : string) : string := ".gif".
End Sample2.

(** A number that is at least one. *)
Definition at_least_one (v : pyval) : Prop :=
  exists q, as_number v = Ok q /\ (1 <= q)%Q.

(** The arguments [a] with another [padding]. *)
Definition with_padding (a : init_args) (padding : pyval) : init_args :=
  {| arg_width := arg_width a; arg_height := arg_height a;
     arg_face_percent := arg_face_percent a; arg_padding := padding;
     arg_fix_gamma := arg_fix_gamma a; arg_portrait := arg_portrait a |}.

(** A dictionary whose values are integers. *)
Definition int_dict (l : list (string * Z)) : pyval :=
  VDict (map (fun kz => (fst kz, VInt (snd kz))) l).

(** [{"pad_top": p, "pad_right": p, "pad_bottom": p, "pad_left": p}] *)
Definition uniform_dict (p : Z) : pyval :=
  int_dict [("pad_top", p); ("pad_right", p); ("pad_bottom", p);
            ("pad_left", p)].

(** The eye line and the candidate interval of the portrait expansion as
    the specification words them, with no rounding:
    [eyeLine = y + EYES_RATIO * h] and
    [[eyeLine - 2 * (expectedHeight / 3), eyeLine + expectedHeight / 3]]. *)
Definition claimed_eye_line (EYES_RATIO : Q) (y h : Z) : Q :=
  inject_Z y + EYES_RATIO * inject_Z h.

Definition claimed_portrait_candidate
    (EYES_RATIO : Q) (y h expected_height : Z) : Q * Q :=
  let eyeLine := claimed_eye_line EYES_RATIO y h in
  ((eyeLine - 2 * (inject_Z expected_height / 3))%Q,
   (eyeLine + inject_Z expected_height / 3)%Q).

(** ** The portrait branch over the program's own division

    [int(n / self.aspect_ratio)] divides by the double stored in the
    engine.  Here that operation is a parameter, [int_div_ratio self n],
    which may raise; the rest of the branch is lines 412 to 429 as
    before. *)
Section PortraitDivision.

Variable EYES_RATIO : Q.
Variable int_div_ratio : Cropper -> Z -> result Z.
Variable self : Cropper.
Variable G : namespace.

Definition portrait_pass_with (x y w h : Z) : result portrait_locals :=
  imgw <- load_global (g_imgw G) ;;
  '(h1, h2, use_face_percent_w) <- _expand_centered self x w imgw None ;;
  expected_height <-
    (if negb use_face_percent_w
     then int_div_ratio self (h2 - h1)
     else int_div_ratio self w) ;;
  imgh <- load_global (g_imgh G) ;;
  '(v1, v2, use_face_percent_h) <-
    _expand_portrait EYES_RATIO y h imgh expected_height ;;
  if negb use_face_percent_h then
    let expected_width := 0 (* int() *) in
    imgw <- load_global (g_imgw G) ;;
    '(h1, h2, use_face_percent_w) <-
      _expand_centered self x w imgw (Some expected_width) ;;
    Ok (mkLocals h1 h2 v1 v2 use_face_percent_w use_face_percent_h)
  else
    Ok (mkLocals h1 h2 v1 v2 use_face_percent_w use_face_percent_h).

Definition portrait_branch_with (x y w h : Z) : result (option (list Z)) :=
  st <- portrait_pass_with x y w h ;;
  _ <- assert (forallb (fun v => v) [use_w st; use_h st]) ;;
  Ok (Some [l_h1 st; l_h2 st; l_v1 st; l_v2 st]).

End PortraitDivision.

(** The division of [portrait_pass]: the exact quotient, truncated. *)
Definition exact_int_div_ratio (self : Cropper) (n : Z) : result Z :=
  q <- truediv (inject_Z n) (aspect_ratio self) ;; Ok (Qtrunc q).

(** ** Arithmetic of [int(a / b)] *)

Lemma Qtrunc_inject_div (a b : Z) :
  b <> 0 -> Qtrunc (inject_Z a / inject_Z b) = Z.quot a b.
Proof.
  intros Hb. unfold Qtrunc, Qdiv, Qinv, Qmult, inject_Z. simpl.
  destruct b as [|p|p]; [congruence| |]; simpl.
  - now rewrite Z.mul_1_r.
  - rewrite <- (Z.quot_opp_opp a (Z.neg p)) by discriminate.
    simpl. f_equal. lia.
Qed.

Lemma Qeq_bool_inject_0 (b : Z) : Qeq_bool (inject_Z b) 0 = (b =? 0).
Proof.
  unfold Qeq_bool, inject_Z. simpl. rewrite Z.mul_1_r.
  destruct b; reflexivity.
Qed.

Lemma int_truediv_quot (a b : Z) :
  b <> 0 -> int_truediv a b = Ok (Z.quot a b).
Proof.
  intros Hb. unfold int_truediv, truediv.
  rewrite Qeq_bool_inject_0.
  destruct (Z.eqb_spec b 0); [contradiction|].
  simpl. now rewrite Qtrunc_inject_div.
Qed.

Lemma int_truediv_0 (a : Z) : int_truediv a 0 = Raise ZeroDivisionError.
Proof. reflexivity. Qed.

Lemma Qtrunc_three_halves (e : Z) :
  Qtrunc ((3 # 2) * inject_Z e) = Z.quot (3 * e) 2.
Proof. unfold Qtrunc, Qmult, inject_Z. simpl. reflexivity. Qed.

Lemma Qgtb_inject (a b : Z) : Qgtb (inject_Z a) (inject_Z b) = (b <? a).
Proof.
  unfold Qgtb, Qle_bool, inject_Z. simpl. rewrite !Z.mul_1_r.
  destruct (Z.leb_spec a b), (Z.ltb_spec b a); simpl; try reflexivity; lia.
Qed.

Lemma Qtrunc_inject (z : Z) : Qtrunc (inject_Z z) = z.
Proof. unfold Qtrunc, inject_Z. simpl. apply Z.quot_1_r. Qed.

(** ** The constructor on integer arguments *)

Lemma check_positive_scalar_int (z : Z) :
  check_positive_scalar (VInt z) = if 0 <? z then Ok z else Raise ValueError.
Proof.
  unfold check_positive_scalar, gt_int, py_int. simpl.
  rewrite Qgtb_inject, Qtrunc_inject.
  destruct (0 <? z); reflexivity.
Qed.


Example square_cropper_constructed :
  Cropper_init (int_args 500 500 50 50) = Ok square_cropper.
Proof. reflexivity. Qed.

Example wide_cropper_constructed :
  Cropper_init (int_args 500 250 50 50) = Ok wide_cropper.
Proof. reflexivity. Qed.

Example tall_cropper_constructed :
  Cropper_init (int_args 300 500 50 50) = Ok tall_cropper.
Proof. reflexivity. Qed.

(** A well-formed padding dictionary is accepted as it is. *)
Example Cropper_init_pad_dict :
  Cropper_init
    {| arg_width := VInt 500; arg_height := VInt 500;
       arg_face_percent := VInt 50;
       arg_padding := VDict [("pad_top", VInt 10); ("pad_right", VInt 50);
                             ("pad_bottom", VInt 10); ("pad_left", VInt 50)];
       arg_fix_gamma := VBool true; arg_portrait := VBool true |}
  = Ok (mkCropper 500 500 (inject_Z 500 / inject_Z 500) (VBool true)
          (VBool true) 50 (VInt 10) (VInt 50) (VInt 10) (VInt 50)).
Proof. reflexivity. Qed.

(** A face percent below one passes validation and is stored as 0. *)
Example Cropper_init_small_face_percent :
  Cropper_init
    {| arg_width := VInt 500; arg_height := VInt 500;
       arg_face_percent := VFloat (1 # 2); arg_padding := VInt 50;
       arg_fix_gamma := VBool true; arg_portrait := VBool true |}
  = Ok (mkCropper 500 500 (inject_Z 500 / inject_Z 500) (VBool true)
          (VBool true) 0 (VInt 50) (VInt 50) (VInt 50) (VInt 50)).
Proof. reflexivity. Qed.

(** ** The centered expansion *)

Ltac step_quot :=
  repeat (rewrite int_truediv_quot by (assumption || discriminate);
          cbn [bind]).

(** C7. No-overflow idempotence: when the symmetric candidate interval
    [center - margin, center + margin] of a face span lies within
    [0, imgw], the centered expansion returns it unchanged and reports
    that expectations are met. *)
Theorem expand_centered_no_overflow (self : Cropper) (x w imgw : Z) :
  face_percent self <> 0 ->
  let half := Z.quot w 2 in
  let margin := Z.quot half (face_percent self) in
  let center := x + half in
  0 <= center - margin ->
  center + margin <= imgw ->
  _expand_centered self x w imgw None
  = Ok (center - margin, center + margin, true).
Proof.
  intros Hfp half margin center Hlo Hhi.
  unfold _expand_centered. step_quot.
  fold half. fold margin. fold center.
  destruct (Z.ltb_spec (center - margin) 0); [lia|].
  destruct (Z.gtb_spec (center + margin) imgw); [lia|].
  reflexivity.
Qed.

Lemma expand_centered_no_overflow_witness :
  _expand_centered loose_cropper 100 200 640 None = Ok (190, 210, true).
Proof.
  apply (expand_centered_no_overflow loose_cropper 100 200 640);
    simpl; lia.
Defined.

(** On the left overflow alone the interval is anchored at 0 and mirrored
    around the center; expectations are then not met. *)
Lemma expand_centered_left_overflow (self : Cropper) (x w imgw : Z) :
  face_percent self <> 0 ->
  let half := Z.quot w 2 in
  let margin := Z.quot half (face_percent self) in
  let center := x + half in
  center - margin < 0 ->
  2 * center <= imgw ->
  _expand_centered self x w imgw None = Ok (0, 2 * center, false).
Proof.
  intros Hfp half margin center Hlo Hhi.
  unfold _expand_centered. step_quot.
  fold half. fold margin. fold center.
  destruct (Z.ltb_spec (center - margin) 0); [|lia].
  destruct (Z.gtb_spec (2 * center) imgw); [lia|].
  reflexivity.
Qed.

(** C8, as the code has it. With an expected width the centered expansion
    returns the window [center - int(ew / 2), center + int(ew / 2)] around
    the face center, whatever the (non-zero) face percent and the image
    extent, and reports that expectations are met; the window is
    [2 * int(ew / 2)] wide, which is [ew] when [ew] is even. *)
Theorem expand_centered_expected_width
    (self : Cropper) (x w imgw ew : Z) :
  face_percent self <> 0 ->
  let center := x + Z.quot w 2 in
  let half := Z.quot ew 2 in
  _expand_centered self x w imgw (Some ew)
  = Ok (center - half, center + half, true)
  /\ (center + half) - (center - half) = 2 * half
  /\ (Z.even ew = true -> (center + half) - (center - half) = ew).
Proof.
  intros Hfp center half.
  unfold _expand_centered. step_quot.
  repeat split; try lia.
  intros Hev. subst half.
  destruct (Z.even_spec ew) as [He _]. destruct (He Hev) as [k ->].
  rewrite Z.mul_comm, Z.quot_mul by discriminate. lia.
Qed.

Lemma expand_centered_expected_width_witness :
  _expand_centered square_cropper 400 200 1000 (Some 300)
  = Ok (350, 650, true)
  /\ 650 - 350 = 2 * 150
  /\ (Z.even 300 = true -> 650 - 350 = 300).
Proof.
  apply (expand_centered_expected_width square_cropper 400 200 1000 300).
  simpl. discriminate.
Defined.

(** C8, as stated, fails on an odd expected width: the window asked to be
    5 wide comes out 4 wide. *)
Lemma expand_centered_odd_width :
  exists lo hi met,
    _expand_centered square_cropper 400 200 1000 (Some 5) = Ok (lo, hi, met)
    /\ hi - lo <> 5.
Proof. exists 498, 502, true. split; [reflexivity | discriminate]. Qed.

(** The face percent is read before the expected width is looked at: an
    engine whose face percent was stored as 0 raises there. *)
Example expand_centered_zero_face_percent :
  _expand_centered (int_cropper 500 500 0 50) 400 200 1000 (Some 300)
  = Raise ZeroDivisionError.
Proof. reflexivity. Qed.

(** C5. Scenario A: image 1000 x 1000, face box (400, 400, 200, 200),
    face percent 50.  On both axes the centered expansion yields the
    candidate interval [498, 502], inside the image and with expectations
    met; it is 4 pixels wide and lies inside the face span [400, 600],
    far from [300, 700].  The orchestrator itself raises [NameError]. *)
Theorem scenario_A_candidate_interval (EYES_RATIO : Q) :
  _expand_centered square_cropper 400 200 1000 None = Ok (498, 502, true)
  /\ 400 < 498 /\ 502 < 600
  /\ _crop_positions EYES_RATIO square_cropper module_namespace
       1000 1000 400 400 200 200 = Raise NameError.
Proof. repeat split. Qed.

(** The non-portrait branch of the same file scales by
    [100.0 / face_percent]: with the free names bound it crops
    [350, 650] on both axes in Scenario A. *)
Example scenario_A_centered_branch (EYES_RATIO : Q) :
  _crop_positions EYES_RATIO square_cropper
    (bound_namespace square_cropper 1000 1000) 1000 1000 400 400 200 200
  = Ok (Some [350; 650; 350; 650]).
Proof. reflexivity. Qed.

(** ** The portrait expansion *)

(** C9. The portrait expansion places the eye line at
    [y + int(EYES_RATIO * h)] and the candidate interval two thirds of the
    expected height above it and one third below (the third being
    [int(expected_height / 3)]).  When the lower end is negative the
    interval becomes [0, int(1.5 * eyeLine)]; when the upper end, after
    that, exceeds the image, it becomes
    [eyeLine - 2 * (imgh - eyeLine), imgh].  Expectations are unmet
    exactly when one of the two overflow branches fires. *)
Theorem expand_portrait_algorithm
    (EYES_RATIO : Q) (y h imgh expected_height : Z) :
  let eyeLine := y + Qtrunc (EYES_RATIO * inject_Z h) in
  let third := Z.quot expected_height 3 in
  let lo0 := eyeLine - 2 * third in
  let hi0 := eyeLine + third in
  exists lo1 hi1 lo hi met,
    _expand_portrait EYES_RATIO y h imgh expected_height = Ok (lo, hi, met)
    /\ (lo0 < 0 -> lo1 = 0 /\ hi1 = Z.quot (3 * eyeLine) 2)
    /\ (0 <= lo0 -> lo1 = lo0 /\ hi1 = hi0)
    /\ (imgh < hi1 -> hi = imgh /\ lo = eyeLine - 2 * (imgh - eyeLine))
    /\ (hi1 <= imgh -> lo = lo1 /\ hi = hi1)
    /\ (met = false <-> lo0 < 0 \/ imgh < hi1).
Proof.
  intros eyeLine third lo0 hi0.
  unfold _expand_portrait. step_quot.
  fold eyeLine. fold third. fold lo0. fold hi0.
  rewrite Qtrunc_three_halves.
  destruct (Z.ltb_spec lo0 0) as [Hlo | Hlo].
  - destruct (Z.gtb_spec (Z.quot (3 * eyeLine) 2) imgh) as [Hhi | Hhi];
      eexists 0, (Z.quot (3 * eyeLine) 2), _, _, _;
      (split; [reflexivity|]); repeat split; intros; try lia; auto.
  - destruct (Z.gtb_spec hi0 imgh) as [Hhi | Hhi];
      eexists lo0, hi0, _, _, _;
      (split; [reflexivity|]); repeat split; intros; try lia; auto;
      match goal with
      | H : _ \/ _ |- _ => destruct H; lia
      | _ => idtac
      end.
Qed.

Example expand_portrait_fits :
  _expand_portrait Sample.EYES_RATIO 400 200 1000 100 = Ok (418, 517, true).
Proof. reflexivity. Qed.

Example expand_portrait_top_overflow :
  _expand_portrait Sample.EYES_RATIO 0 100 1000 100 = Ok (0, 63, false).
Proof. reflexivity. Qed.

Example expand_portrait_bottom_overflow :
  _expand_portrait Sample.EYES_RATIO 900 200 1000 100
  = Ok (952, 1000, false).
Proof. reflexivity. Qed.

(** C9, as stated, fails on the code: for the face box (400, 200) and an
    expected height of 100 the specification's candidate starts at
    [484 - 2 * (100 / 3)], which is 417 and a third, where the expansion
    returns 418. *)
Lemma expand_portrait_not_exact :
  exists lo hi met,
    _expand_portrait Sample.EYES_RATIO 400 200 1000 100 = Ok (lo, hi, met)
    /\ ~ (inject_Z lo
          == fst (claimed_portrait_candidate Sample.EYES_RATIO 400 200 100))%Q.
Proof.
  exists 418, 517, true. split; [reflexivity|].
  intros H. vm_compute in H. discriminate H.
Qed.

(** The upper end after a lower overflow is [int(1.5 * eyeLine)]: 64 for
    an eye line of 43, where [1.5 * eyeLine] is 64 and a half. *)
Example expand_portrait_truncated_upper_end :
  _expand_portrait Sample.EYES_RATIO 1 100 1000 100 = Ok (0, 64, false)
  /\ ~ (inject_Z 64
        == (3 # 2) * claimed_eye_line Sample.EYES_RATIO 1 100)%Q.
Proof.
  split; [reflexivity|]. intros H. vm_compute in H. discriminate H.
Qed.

(** ** The orchestrator *)

(** C2. Mode selection.  In the module's own namespace the test
    [if padding:] raises [NameError] for every engine, so no branch is
    entered.  With [padding] bound to a false value the portrait branch is
    entered by the engine that is wider than tall and the centered branch
    by the engine that is taller than wide, both with the portrait flag
    set. *)
Theorem mode_selection_on_code :
  (forall self, select_mode self module_namespace = Raise NameError)
  /\ select_mode tall_cropper (bound_namespace tall_cropper 1000 1000)
     = Ok Centered
  /\ select_mode wide_cropper (bound_namespace wide_cropper 1000 1000)
     = Ok Portrait.
Proof. repeat split. Qed.

(** Once [padding] is bound, the branch entered is a function of its
    truth value, of [width > height] and of the portrait flag. *)
Lemma select_mode_bound (self : Cropper) (G : namespace) (p : pyval) :
  g_padding G = Some p ->
  select_mode self G
  = Ok (if truthy p then Padded
        else if (height self <? width self) && truthy (portrait self)
             then Portrait else Centered).
Proof.
  intros Hp. unfold select_mode. rewrite Hp. cbn [load_global bind].
  destruct (truthy p); [reflexivity|].
  rewrite Z.gtb_ltb.
  destruct (height self <? width self), (truthy (portrait self));
    reflexivity.
Qed.

(** C1. In the module's own namespace [_crop_positions] raises
    [NameError] on every engine, image extent and face box: it returns no
    rectangle at all. *)
Theorem crop_positions_raises_NameError
    (EYES_RATIO : Q) (self : Cropper) (img_height img_width x y w h : Z) :
  _crop_positions EYES_RATIO self module_namespace img_height img_width
    x y w h = Raise NameError.
Proof. reflexivity. Qed.

(** The padded branch calls a method that takes no argument. *)
Lemma crop_positions_padded_raises
    (EYES_RATIO : Q) (self : Cropper) (G : namespace) (p : pyval)
    (img_height img_width x y w h : Z) :
  g_padding G = Some p -> truthy p = true ->
  _crop_positions EYES_RATIO self G img_height img_width x y w h
  = Raise TypeError.
Proof.
  intros Hp Ht. unfold _crop_positions.
  rewrite (select_mode_bound self G p Hp), Ht. reflexivity.
Qed.

(** With the free names bound, the portrait branch returns
    [[h1; h2; v1; v2]], which [crop] reads as rows first: on a 100 x 1000
    image the rows 898 to 902 are outside. *)
Example portrait_branch_outside_image :
  _crop_positions Sample.EYES_RATIO wide_cropper
    (bound_namespace wide_cropper 100 1000) 100 1000 800 46 200 50
  = Ok (Some [898; 902; 1; 100])
  /\ ~ contained 100 1000 [898; 902; 1; 100].
Proof. split; [reflexivity | simpl; lia]. Qed.

(** C3. Whenever the vertical pass of the portrait branch reports unmet
    expectations, the horizontal expansion is run again with
    [expected_width = int() = 0]: the new horizontal interval is the single
    point [x + int(w / 2)], of width 0, and the [assert] that follows
    fails. *)
Theorem portrait_rerun_zero_width
    (EYES_RATIO : Q) (self : Cropper) (G : namespace) (x y w h : Z)
    (st : portrait_locals) :
  portrait_pass EYES_RATIO self G x y w h = Ok st ->
  use_h st = false ->
  l_h1 st = x + Z.quot w 2
  /\ l_h2 st = x + Z.quot w 2
  /\ l_h2 st - l_h1 st = 0
  /\ portrait_branch EYES_RATIO self G x y w h = Raise AssertionError.
Proof.
  intros Hpass Huse.
  assert (Hbranch :
    portrait_branch EYES_RATIO self G x y w h = Raise AssertionError).
  { unfold portrait_branch. rewrite Hpass. cbn [bind]. rewrite Huse.
    simpl. rewrite andb_false_r. reflexivity. }
  unfold portrait_pass in Hpass.
  destruct (load_global (g_imgw G)) as [imgw|] eqn:Himgw;
    cbn [bind] in Hpass; [|discriminate].
  destruct (_expand_centered self x w imgw None) as [[[h1 h2] uw]|] eqn:Hc;
    cbn [bind] in Hpass; [|discriminate].
  match type of Hpass with
  | bind ?e _ = _ => destruct e as [eh|]; cbn [bind] in Hpass;
                     [|discriminate]
  end.
  destruct (load_global (g_imgh G)) as [imgh|];
    cbn [bind] in Hpass; [|discriminate].
  destruct (_expand_portrait EYES_RATIO y h imgh eh) as [[[v1 v2] uh]|];
    cbn [bind] in Hpass; [|discriminate].
  destruct uh; cbn [negb] in Hpass.
  - inversion Hpass; subst st. discriminate.
  - unfold _expand_centered in Hpass, Hc.
    rewrite (int_truediv_quot w 2) in Hpass, Hc by discriminate.
    cbn [bind] in Hpass, Hc.
    destruct (int_truediv (Z.quot w 2) (face_percent self));
      cbn [bind] in Hpass, Hc; [|discriminate].
    rewrite (int_truediv_quot 0 2) in Hpass by discriminate.
    cbn [bind] in Hpass. inversion Hpass; subst st; cbn.
    change (Z.quot 0 2) with 0.
    repeat split; try lia. exact Hbranch.
Qed.

Lemma portrait_rerun_zero_width_witness :
  l_h1 (mkLocals 500 500 0 63 true false) = 400 + Z.quot 200 2
  /\ l_h2 (mkLocals 500 500 0 63 true false) = 400 + Z.quot 200 2
  /\ l_h2 (mkLocals 500 500 0 63 true false)
     - l_h1 (mkLocals 500 500 0 63 true false) = 0
  /\ portrait_branch Sample.EYES_RATIO wide_cropper
       (bound_namespace wide_cropper 1000 1000) 400 0 200 100
     = Raise AssertionError.
Proof.
  apply (portrait_rerun_zero_width Sample.EYES_RATIO wide_cropper
           (bound_namespace wide_cropper 1000 1000) 400 0 200 100
           (mkLocals 500 500 0 63 true false));
    reflexivity.
Defined.

(** ** The constructor *)

(** C6. [Cropper()] with every argument left at its default: the default
    padding is [None], which is neither an [int] nor a dictionary, and
    [len(None)] in [check_valid_pad_dict] raises [TypeError]. *)
Theorem Cropper_init_default_raises :
  Cropper_init default_args = Raise TypeError.
Proof. reflexivity. Qed.

(** A padding dictionary with a wrong key set or a non-positive value is
    refused with [ValueError]. *)
Example Cropper_init_wrong_keys :
  check_valid_pad_dict
    (VDict [("top", VInt 10); ("right", VInt 50);
            ("bottom", VInt 10); ("left", VInt 50)]) = Raise ValueError.
Proof. reflexivity. Qed.

Example Cropper_init_non_positive_value :
  check_valid_pad_dict
    (VDict [("pad_top", VInt 10); ("pad_right", VInt 0);
            ("pad_bottom", VInt 10); ("pad_left", VInt 50)])
  = Raise ValueError.
Proof. reflexivity. Qed.

(** ** The driver *)

Section DriverFacts.

Variable EYES_RATIO : Q.
Variables CV2_FILETYPES PILLOW_FILETYPES : list string.
Variable ndarray : Type.
Variable shape : ndarray -> list Z.
Variable splitext_lower : string -> string.
Variable cv2_imread : string -> option ndarray.
Variable pil_open : string -> result ndarray.
Variable cv2_cvtColor : pyobj ndarray -> result ndarray.
Variable minface_of : Z -> Z -> Z.
Variable detectMultiScale :
  pyobj ndarray -> Z -> result (list (Z * Z * Z * Z)).
Variable slice2 : ndarray -> Z -> Z -> Z -> Z -> ndarray.
Variable cv2_resize : ndarray -> Z -> Z -> result ndarray.
Variable check_underexposed : ndarray -> pyobj ndarray -> result ndarray.
Variable bgr_to_rbg : ndarray -> ndarray.

Let load := load_image CV2_FILETYPES PILLOW_FILETYPES ndarray
              splitext_lower cv2_imread pil_open.
Let gray_of := to_gray ndarray cv2_cvtColor.
Let extent := image_extent ndarray shape.
Let run_with := crop_with CV2_FILETYPES PILLOW_FILETYPES ndarray shape
                  splitext_lower cv2_imread pil_open cv2_cvtColor
                  minface_of detectMultiScale slice2 cv2_resize
                  check_underexposed bgr_to_rbg.
Let run := crop EYES_RATIO CV2_FILETYPES PILLOW_FILETYPES ndarray shape
             splitext_lower cv2_imread pil_open cv2_cvtColor
             minface_of detectMultiScale slice2 cv2_resize
             check_underexposed bgr_to_rbg.

(** The only value the loader produces in place of an array is
    [None]. *)
Lemma open_file_value (path : string) (v : pyval) :
  open_file CV2_FILETYPES PILLOW_FILETYPES ndarray splitext_lower
    cv2_imread pil_open path = Ok (Val v) -> v = VNone.
Proof.
  unfold open_file.
  destruct (mem_str _ CV2_FILETYPES).
  - destruct (cv2_imread path); intros H; inversion H; reflexivity.
  - destruct (mem_str _ PILLOW_FILETYPES).
    + destruct (pil_open path); cbn [bind]; intros H; inversion H.
    + intros H; inversion H; reflexivity.
Qed.

(** An image without shape is either what the loader returned for a
    path, and then [None], or the argument itself. *)
Lemma load_image_value (path_or_array : pyobj ndarray) (v : pyval) :
  load path_or_array = Ok (Val v) ->
  (exists path, path_or_array = Val (VStr path) /\ v = VNone)
  \/ (path_or_array = Val v /\ isinstance_str v = false).
Proof.
  subst load. unfold load_image.
  destruct path_or_array as [a | u]; [discriminate|].
  destruct u; intros H;
    try (right; inversion H; subst; split; reflexivity).
  left. exists s. split; [reflexivity|].
  eapply open_file_value; eassumption.
Qed.

(** C4. When the detector, run on the image behind the argument,
    returns no box, [crop] returns [None]: it does not raise, and the
    result does not depend on the method that computes crop positions,
    which is not called. *)
Theorem crop_no_face
    (self : Cropper) (path_or_array image gray : pyobj ndarray)
    (img_height img_width : Z) :
  load path_or_array = Ok image ->
  gray_of image = Ok gray ->
  extent image = Ok (img_height, img_width) ->
  detectMultiScale gray (minface_of img_height img_width) = Ok [] ->
  (forall positions, run_with positions self path_or_array = Ok None)
  /\ (forall G, run G self path_or_array = Ok None).
Proof.
  intros Hload Hgray Hextent Hfaces.
  assert (Hany : forall positions,
             run_with positions self path_or_array = Ok None).
  { intros positions. subst run_with load gray_of extent.
    unfold crop_with.
    rewrite Hload. cbn [bind]. rewrite Hgray. cbn [bind].
    rewrite Hextent. cbn [bind]. rewrite Hfaces. reflexivity. }
  split; [exact Hany|].
  intros G. apply Hany.
Qed.

(** C10. When the image behind the argument has no shape (the loader
    returned [None] for the path, or the argument is a plain value) and
    the gray-scale conversion fails, if at all, with [cv2.error], [crop]
    raises [ImageReadError]; it does not return [None].
    [ImageReadError] derives from [BaseException] and not from
    [Exception]. *)
Theorem crop_without_shape_raises
    (G : namespace) (self : Cropper) (path_or_array : pyobj ndarray)
    (v : pyval) :
  load path_or_array = Ok (Val v) ->
  (forall e, cv2_cvtColor (Val v) = Raise e -> e = cv2_error) ->
  run G self path_or_array = Raise ImageReadError
  /\ run G self path_or_array <> Ok None
  /\ issubclass ImageReadError BaseException = true
  /\ issubclass ImageReadError Exception = false.
Proof.
  intros Hload Hcv.
  assert (Hrun : run G self path_or_array = Raise ImageReadError).
  { subst run load. unfold crop, crop_with.
    rewrite Hload. cbn [bind]. unfold to_gray.
    destruct (cv2_cvtColor (Val v)) as [g | e] eqn:Hg; cbn [bind].
    - reflexivity.
    - rewrite (Hcv e eq_refl). reflexivity. }
  rewrite Hrun. repeat split. discriminate.
Qed.

End DriverFacts.

Lemma crop_no_face_witness :
  (forall positions,
     crop_with Sample.CV2_FILETYPES Sample.PILLOW_FILETYPES Sample.ndarray
       Sample.shape Sample.splitext_lower Sample.cv2_imread Sample.pil_open
       Sample.cv2_cvtColor Sample.minface_of Sample.detectMultiScale
       Sample.slice2 Sample.cv2_resize Sample.check_underexposed
       Sample.bgr_to_rbg positions square_cropper (Arr [1000; 1000; 3])
     = Ok None)
  /\ (forall G,
     crop Sample.EYES_RATIO Sample.CV2_FILETYPES Sample.PILLOW_FILETYPES
       Sample.ndarray Sample.shape Sample.splitext_lower Sample.cv2_imread
       Sample.pil_open Sample.cv2_cvtColor Sample.minface_of
       Sample.detectMultiScale Sample.slice2 Sample.cv2_resize
       Sample.check_underexposed Sample.bgr_to_rbg G square_cropper
       (Arr [1000; 1000; 3])
     = Ok None).
Proof.
  apply (crop_no_face Sample.EYES_RATIO Sample.CV2_FILETYPES
           Sample.PILLOW_FILETYPES Sample.ndarray Sample.shape
           Sample.splitext_lower Sample.cv2_imread Sample.pil_open
           Sample.cv2_cvtColor Sample.minface_of Sample.detectMultiScale
           Sample.slice2 Sample.cv2_resize Sample.check_underexposed
           Sample.bgr_to_rbg square_cropper
           (Arr [1000; 1000; 3]) (Arr [1000; 1000; 3]) (Arr [1000; 1000])
           1000 1000);
    reflexivity.
Defined.

Lemma crop_without_shape_raises_witness :
  crop Sample.EYES_RATIO Sample.CV2_FILETYPES Sample.PILLOW_FILETYPES
    Sample.ndarray Sample.shape Sample.splitext_lower Sample.cv2_imread
    Sample.pil_open Sample.cv2_cvtColor Sample.minface_of
    Sample.detectMultiScale Sample.slice2 Sample.cv2_resize
    Sample.check_underexposed Sample.bgr_to_rbg module_namespace
    square_cropper (Val (VStr "missing.jpg"))
  = Raise ImageReadError
  /\ crop Sample.EYES_RATIO Sample.CV2_FILETYPES Sample.PILLOW_FILETYPES
    Sample.ndarray Sample.shape Sample.splitext_lower Sample.cv2_imread
    Sample.pil_open Sample.cv2_cvtColor Sample.minface_of
    Sample.detectMultiScale Sample.slice2 Sample.cv2_resize
    Sample.check_underexposed Sample.bgr_to_rbg module_namespace
    square_cropper (Val (VStr "missing.jpg"))
  <> Ok None
  /\ issubclass ImageReadError BaseException = true
  /\ issubclass ImageReadError Exception = false.
Proof.
  apply (crop_without_shape_raises Sample.EYES_RATIO Sample.CV2_FILETYPES
           Sample.PILLOW_FILETYPES Sample.ndarray Sample.shape
           Sample.splitext_lower Sample.cv2_imread Sample.pil_open
           Sample.cv2_cvtColor Sample.minface_of Sample.detectMultiScale
           Sample.slice2 Sample.cv2_resize Sample.check_underexposed
           Sample.bgr_to_rbg module_namespace square_cropper
           (Val (VStr "missing.jpg")) VNone).
  - reflexivity.
  - intros e H. simpl in H. inversion H. reflexivity.
Defined.


(** ** Further properties of the expansions *)

Ltac run_quot :=
  repeat (rewrite int_truediv_quot by (assumption || discriminate || lia);
          cbn [bind]).

Lemma quot_nonneg_bounds (a b : Z) :
  0 <= a -> 0 < b -> 0 <= Z.quot a b <= a.
Proof.
  intros Ha Hb. rewrite Z.quot_div_nonneg by lia. split.
  - apply Z.div_pos; lia.
  - apply Z.div_le_upper_bound; nia.
Qed.

Lemma quot_two_bounds (w : Z) : 0 <= w -> 0 <= Z.quot w 2 /\ 2 * Z.quot w 2 <= w.
Proof.
  intros Hw. rewrite Z.quot_div_nonneg by lia.
  pose proof (Z.mul_div_le w 2). pose proof (Z.div_pos w 2). lia.
Qed.

(** Without an expected width the centered expansion, whichever of its
    two overflow branches fire, returns an interval whose lower end is
    not negative, whose upper end is not beyond the image, and whose two
    ends are mirrored around the face center [x + int(w / 2)]. *)
Theorem expand_centered_clamped (self : Cropper) (x w imgw : Z) :
  face_percent self <> 0 ->
  exists lo hi met,
    _expand_centered self x w imgw None = Ok (lo, hi, met)
    /\ 0 <= lo /\ hi <= imgw /\ lo + hi = 2 * (x + Z.quot w 2).
Proof.
  intros Hfp. unfold _expand_centered. step_quot.
  set (c := x + Z.quot w 2).
  set (j := Z.quot (Z.quot w 2) (face_percent self)).
  destruct (Z.ltb_spec (c - j) 0).
  - destruct (Z.gtb_spec (2 * c) imgw);
      eexists _, _, _; (split; [reflexivity|]); lia.
  - destruct (Z.gtb_spec (c + j) imgw);
      eexists _, _, _; (split; [reflexivity|]); lia.
Qed.

Lemma expand_centered_clamped_witness :
  exists lo hi met,
    _expand_centered square_cropper 900 400 1000 None = Ok (lo, hi, met)
    /\ 0 <= lo /\ hi <= 1000 /\ lo + hi = 2 * (900 + Z.quot 400 2).
Proof.
  apply (expand_centered_clamped square_cropper 900 400 1000).
  simpl. discriminate.
Defined.

(** The centered expansion reports met expectations exactly when the
    candidate interval [center - margin, center + margin] lies within
    [0, imgw]. *)
Theorem expand_centered_met_iff (self : Cropper) (x w imgw : Z) :
  face_percent self <> 0 ->
  let center := x + Z.quot w 2 in
  let margin := Z.quot (Z.quot w 2) (face_percent self) in
  exists lo hi met,
    _expand_centered self x w imgw None = Ok (lo, hi, met)
    /\ (met = true <-> 0 <= center - margin /\ center + margin <= imgw).
Proof.
  intros Hfp c j. unfold _expand_centered. step_quot.
  fold c. fold j.
  destruct (Z.ltb_spec (c - j) 0).
  - destruct (Z.gtb_spec (2 * c) imgw);
      eexists _, _, _; (split; [reflexivity|]);
      (split; [discriminate | lia]).
  - destruct (Z.gtb_spec (c + j) imgw);
      eexists _, _, _; (split; [reflexivity|]);
      (split; [try discriminate; lia | try lia; reflexivity]).
Qed.

Lemma expand_centered_met_iff_witness :
  exists lo hi met,
    _expand_centered square_cropper 900 400 1000 None = Ok (lo, hi, met)
    /\ (met = true <->
        0 <= 900 + Z.quot 400 2 - Z.quot (Z.quot 400 2) 50
        /\ 900 + Z.quot 400 2 + Z.quot (Z.quot 400 2) 50 <= 1000).
Proof.
  apply (expand_centered_met_iff square_cropper 900 400 1000).
  simpl. discriminate.
Defined.

(** For a face span that lies inside the image and a positive stored face
    percent, neither overflow branch of the centered expansion fires, and
    the interval it returns lies inside the face span [x, x + w]: the
    expansion adds no margin around the face. *)
Theorem expand_centered_within_face (self : Cropper) (x w imgw : Z) :
  0 < face_percent self ->
  0 <= x -> 0 <= w -> x + w <= imgw ->
  exists lo hi,
    _expand_centered self x w imgw None = Ok (lo, hi, true)
    /\ x <= lo /\ lo <= hi /\ hi <= x + w.
Proof.
  intros Hfp Hx Hw Hin.
  destruct (quot_two_bounds w Hw) as [Hi0 Hi1].
  destruct (quot_nonneg_bounds (Z.quot w 2) (face_percent self) Hi0 Hfp)
    as [Hj0 Hj1].
  exists (x + Z.quot w 2 - Z.quot (Z.quot w 2) (face_percent self)),
         (x + Z.quot w 2 + Z.quot (Z.quot w 2) (face_percent self)).
  split; [|lia].
  unfold _expand_centered. run_quot.
  destruct (Z.ltb_spec
              (x + Z.quot w 2 - Z.quot (Z.quot w 2) (face_percent self)) 0);
    [lia|].
  destruct (Z.gtb_spec
              (x + Z.quot w 2 + Z.quot (Z.quot w 2) (face_percent self))
              imgw); [lia|].
  reflexivity.
Qed.

Lemma expand_centered_within_face_witness :
  exists lo hi,
    _expand_centered square_cropper 400 200 1000 None = Ok (lo, hi, true)
    /\ 400 <= lo /\ lo <= hi /\ hi <= 400 + 200.
Proof.
  apply (expand_centered_within_face square_cropper 400 200 1000);
    simpl; lia.
Defined.

(** A face span inside the image whose half width is below the stored
    face percent gets the empty interval [center, center]. *)
Theorem expand_centered_small_face (self : Cropper) (x w imgw : Z) :
  0 <= x -> 0 <= w -> x + w <= imgw ->
  Z.quot w 2 < face_percent self ->
  _expand_centered self x w imgw None
  = Ok (x + Z.quot w 2, x + Z.quot w 2, true).
Proof.
  intros Hx Hw Hin Hsmall.
  destruct (quot_two_bounds w Hw) as [Hi0 Hi1].
  unfold _expand_centered.
  rewrite (int_truediv_quot w 2) by discriminate. cbn [bind].
  rewrite int_truediv_quot by lia. cbn [bind].
  rewrite (Z.quot_small (Z.quot w 2) (face_percent self)) by lia.
  rewrite Z.sub_0_r, Z.add_0_r.
  destruct (Z.ltb_spec (x + Z.quot w 2) 0); [lia|].
  destruct (Z.gtb_spec (x + Z.quot w 2) imgw); [lia|].
  reflexivity.
Qed.

Lemma expand_centered_small_face_witness :
  _expand_centered square_cropper 100 80 640 None = Ok (140, 140, true).
Proof.
  apply (expand_centered_small_face square_cropper 100 80 640);
    vm_compute; (reflexivity || discriminate).
Defined.

(** The portrait expansion, whichever of its two overflow branches fire,
    returns an interval whose lower end is not negative and whose upper
    end is not beyond the image. *)
Theorem expand_portrait_clamped
    (EYES_RATIO : Q) (y h imgh expected_height : Z) :
  exists lo hi met,
    _expand_portrait EYES_RATIO y h imgh expected_height = Ok (lo, hi, met)
    /\ 0 <= lo /\ hi <= imgh.
Proof.
  unfold _expand_portrait. run_quot.
  rewrite Qtrunc_three_halves.
  set (e := y + Qtrunc (EYES_RATIO * inject_Z h)).
  set (t := Z.quot expected_height 3).
  destruct (Z.ltb_spec (e - 2 * t) 0).
  - destruct (Z.gtb_spec (Z.quot (3 * e) 2) imgh) as [Hgt | Hle];
      eexists _, _, _; (split; [reflexivity|]); [|lia].
    pose proof (Z.quot_rem' (3 * e) 2) as Hqr.
    pose proof (Z.rem_bound_abs (3 * e) 2 ltac:(discriminate)) as Hr.
    split; [|lia].
    destruct (Z.le_gt_cases 0 (3 * e)) as [Hpos | Hneg].
    + pose proof (Z.rem_nonneg (3 * e) 2 ltac:(discriminate) Hpos). lia.
    + pose proof (Z.rem_nonpos (3 * e) 2 ltac:(discriminate) ltac:(lia)).
      change (Z.abs 2) with 2 in Hr. lia.
  - destruct (Z.gtb_spec (e + t) imgh);
      eexists _, _, _; (split; [reflexivity|]); lia.
Qed.

(** The portrait expansion keeps the eye line twice as far from the
    lower end of the interval as from its upper end: exactly when the
    candidate's lower end is not negative or the upper overflow branch
    fires, and up to the rounding of [int(1.5 * eyeLine)] otherwise. *)
Theorem expand_portrait_eye_line
    (EYES_RATIO : Q) (y h imgh expected_height : Z) :
  let eyeLine := y + Qtrunc (EYES_RATIO * inject_Z h) in
  let third := Z.quot expected_height 3 in
  exists lo hi met,
    _expand_portrait EYES_RATIO y h imgh expected_height = Ok (lo, hi, met)
    /\ -1 <= (eyeLine - lo) - 2 * (hi - eyeLine) <= 1
    /\ (0 <= eyeLine - 2 * third \/ imgh < Z.quot (3 * eyeLine) 2 ->
        eyeLine - lo = 2 * (hi - eyeLine)).
Proof.
  intros e t. unfold _expand_portrait. run_quot.
  rewrite Qtrunc_three_halves. fold e. fold t.
  destruct (Z.ltb_spec (e - 2 * t) 0).
  - destruct (Z.gtb_spec (Z.quot (3 * e) 2) imgh) as [Hgt | Hle];
      eexists _, _, _; (split; [reflexivity|]).
    + split; [lia|]. intros _. lia.
    + pose proof (Z.quot_rem' (3 * e) 2) as Hqr.
      pose proof (Z.rem_bound_abs (3 * e) 2 ltac:(discriminate)) as Hr.
      change (Z.abs 2) with 2 in Hr.
      split; [lia|]. intros [Hc | Hc]; lia.
  - destruct (Z.gtb_spec (e + t) imgh);
      eexists _, _, _; (split; [reflexivity|]);
      (split; [lia|]); intros _; lia.
Qed.

(** The portrait expansion reports met expectations exactly when the
    candidate interval lies within [0, imgh]; the interval it then returns
    is [3 * int(expected_height / 3)] high, which is the expected height
    only when that is a multiple of 3, and at most two pixels less for a
    non-negative expected height. *)
Theorem expand_portrait_met
    (EYES_RATIO : Q) (y h imgh expected_height : Z) :
  let eyeLine := y + Qtrunc (EYES_RATIO * inject_Z h) in
  let third := Z.quot expected_height 3 in
  exists lo hi met,
    _expand_portrait EYES_RATIO y h imgh expected_height = Ok (lo, hi, met)
    /\ (met = true <->
        0 <= eyeLine - 2 * third /\ eyeLine + third <= imgh)
    /\ (met = true -> hi - lo = 3 * third)
    /\ (met = true -> 0 <= expected_height ->
        expected_height - 2 <= hi - lo <= expected_height)
    /\ (met = true -> (hi - lo = expected_height <->
                       Z.rem expected_height 3 = 0)).
Proof.
  intros e t. unfold _expand_portrait. run_quot.
  rewrite Qtrunc_three_halves. fold e. fold t.
  pose proof (Z.quot_rem' expected_height 3) as Hqr. fold t in Hqr.
  destruct (Z.ltb_spec (e - 2 * t) 0).
  - destruct (Z.gtb_spec (Z.quot (3 * e) 2) imgh);
      eexists _, _, _; (split; [reflexivity|]);
      repeat split; intros; try discriminate; try lia.
  - destruct (Z.gtb_spec (e + t) imgh);
      eexists _, _, _; (split; [reflexivity|]);
      repeat split; intros; try discriminate; try lia.
    all: try (pose proof (Z.rem_bound_pos expected_height 3
                            ltac:(lia) ltac:(lia)); lia).
    all: try reflexivity.
Qed.

(** ** Further properties of the validators and of the constructor *)

Lemma Qgtb_true (a b : Q) : Qgtb a b = true <-> (b < a)%Q.
Proof.
  unfold Qgtb. rewrite negb_true_iff. split.
  - intros H. apply Qnot_le_lt. intros Hle.
    apply Qle_bool_iff in Hle. congruence.
  - intros H. destruct (Qle_bool a b) eqn:E; [|reflexivity].
    apply Qle_bool_iff in E. exfalso. exact (Qlt_not_le _ _ H E).
Qed.

Lemma Qgtb_false (a b : Q) : Qgtb a b = false <-> (a <= b)%Q.
Proof.
  unfold Qgtb. rewrite negb_false_iff. apply Qle_bool_iff.
Qed.

Lemma Qtrunc_bounds (q : Q) :
  (0 <= q)%Q ->
  0 <= Qtrunc q
  /\ (inject_Z (Qtrunc q) <= q)%Q /\ (q < inject_Z (Qtrunc q + 1))%Q.
Proof.
  destruct q as [n d]. unfold Qle, Qlt, Qtrunc, inject_Z. simpl.
  intros Hn. rewrite Z.mul_1_r in Hn.
  rewrite Z.quot_div_nonneg by lia.
  pose proof (Z.mul_div_le n (Zpos d) ltac:(lia)).
  pose proof (Z.mul_succ_div_gt n (Zpos d) ltac:(lia)).
  pose proof (Z.div_pos n (Zpos d) Hn ltac:(lia)).
  rewrite !Z.mul_1_r. lia.
Qed.

Lemma as_number_not_str (v : pyval) (q : Q) :
  as_number v = Ok q -> isinstance_str v = false /\ np_isscalar v = true.
Proof. destruct v; simpl; intros H; try discriminate; auto. Qed.

Lemma check_positive_scalar_number (v : pyval) (q : Q) :
  as_number v = Ok q ->
  check_positive_scalar v
  = if Qgtb q 0 then Ok (Qtrunc q) else Raise ValueError.
Proof.
  intros Hq. destruct (as_number_not_str v q Hq) as [Hs Hn].
  unfold check_positive_scalar, gt_int, py_int.
  rewrite Hq, Hs, Hn. cbn [bind inject_Z].
  change (inject_Z 0) with 0%Q.
  destruct (Qgtb q 0); reflexivity.
Qed.


Lemma check_positive_scalar_inv (v : pyval) (k : Z) :
  check_positive_scalar v = Ok k ->
  exists q,
    as_number v = Ok q /\ (0 < q)%Q /\ 0 <= k
    /\ (inject_Z k <= q)%Q /\ (q < inject_Z (k + 1))%Q
    /\ ((q < 1)%Q -> k = 0).
Proof.
  intros H. destruct (as_number v) as [q|e] eqn:Hq.
  - rewrite (check_positive_scalar_number v q Hq) in H.
    destruct (Qgtb q 0) eqn:Hgt; [|discriminate].
    inversion H; subst k. apply Qgtb_true in Hgt.
    destruct (Qtrunc_bounds q (Qlt_le_weak _ _ Hgt)) as (H0 & Hlo & Hhi).
    exists q. repeat split; auto.
    intros H1.
    assert (Hlt : (inject_Z (Qtrunc q) < inject_Z 1)%Q)
      by (eapply Qle_lt_trans; eassumption).
    rewrite <- Zlt_Qlt in Hlt. lia.
  - unfold check_positive_scalar, gt_int in H. rewrite Hq in H.
    discriminate.
Qed.

(** Whenever [check_positive_scalar] returns, its argument is a number
    above zero and the result is the integer part of that number: not
    negative, but 0 for an argument below one. *)
Theorem check_positive_scalar_returns (v : pyval) (k : Z) :
  check_positive_scalar v = Ok k ->
  exists q,
    as_number v = Ok q /\ (0 < q)%Q /\ 0 <= k
    /\ (inject_Z k <= q)%Q /\ (q < inject_Z (k + 1))%Q
    /\ ((q < 1)%Q -> k = 0).
Proof. exact (check_positive_scalar_inv v k). Qed.

Lemma check_positive_scalar_returns_witness :
  exists q,
    as_number (VFloat (5 # 2)) = Ok q /\ (0 < q)%Q /\ 0 <= 2
    /\ (inject_Z 2 <= q)%Q /\ (q < inject_Z (2 + 1))%Q
    /\ ((q < 1)%Q -> 2 = 0).
Proof.
  apply (check_positive_scalar_returns (VFloat (5 # 2)) 2). reflexivity.
Defined.

(** A number above zero and below one passes [check_positive_scalar],
    which returns 0 for it. *)
Theorem check_positive_scalar_fraction (q : Q) :
  (0 < q)%Q -> (q < 1)%Q -> check_positive_scalar (VFloat q) = Ok 0.
Proof.
  intros H0 H1.
  rewrite (check_positive_scalar_number (VFloat q) q eq_refl).
  destruct (Qgtb q 0) eqn:Hgt.
  - destruct (Qtrunc_bounds q (Qlt_le_weak _ _ H0)) as (Hk & Hlo & _).
    assert (Hlt : (inject_Z (Qtrunc q) < inject_Z 1)%Q)
      by (eapply Qle_lt_trans; eassumption).
    rewrite <- Zlt_Qlt in Hlt. f_equal. lia.
  - apply Qgtb_false in Hgt. exfalso. exact (Qlt_not_le _ _ H0 Hgt).
Qed.

Lemma check_positive_scalar_fraction_witness :
  check_positive_scalar (VFloat (1 # 2)) = Ok 0.
Proof.
  apply (check_positive_scalar_fraction (1 # 2)); reflexivity.
Defined.

Ltac bind_ok H :=
  match type of H with
  | bind ?m _ = Ok _ =>
      let E := fresh "E" in
      destruct m eqn:E; cbn [bind] in H; [|discriminate H]
  end.

Lemma mem_str_In (s : string) (l : list string) :
  mem_str s l = true <-> In s l.
Proof.
  unfold mem_str. rewrite existsb_exists. split.
  - intros (x & Hx & Heq). apply String.eqb_eq in Heq. now subst.
  - intros H. exists s. split; [exact H | apply String.eqb_refl].
Qed.

(** [same_set] is equality of the two lists as sets. *)
Lemma same_set_spec (a b : list string) :
  same_set a b = true <-> (forall s, In s a <-> In s b).
Proof.
  unfold same_set. rewrite andb_true_iff, !forallb_forall. split.
  - intros [Hab Hba] s. split; intros H.
    + apply mem_str_In, Hab, H.
    + apply mem_str_In, Hba, H.
  - intros H. split; intros s Hs; apply mem_str_In, H, Hs.
Qed.

Lemma getitem_In (items : list (string * pyval)) (key : string) (v : pyval) :
  getitem items key = Some v -> In (key, v) items.
Proof.
  induction items as [|[k u] rest IH]; simpl; [discriminate|].
  destruct (String.eqb_spec k key) as [-> | _].
  - intros H. inversion H. now left.
  - intros H. right. now apply IH.
Qed.

Lemma getitem_key (items : list (string * pyval)) (key : string) :
  In key (map fst items) -> exists v, getitem items key = Some v.
Proof.
  induction items as [|[k u] rest IH]; simpl; [contradiction|].
  intros [-> | H].
  - rewrite String.eqb_refl. now exists u.
  - destruct (String.eqb k key); [now exists u | now apply IH].
Qed.

Lemma check_positive_scalar_nonzero (v : pyval) (k : Z) :
  check_positive_scalar v = Ok k -> k <> 0 -> at_least_one v.
Proof.
  intros H Hk.
  destruct (check_positive_scalar_inv v k H)
    as (q & Hq & _ & Hk0 & Hlo & _).
  exists q. split; [exact Hq|].
  eapply Qle_trans; [|exact Hlo].
  change 1%Q with (inject_Z 1). rewrite <- Zle_Qle. lia.
Qed.

Lemma all_positive_true (values : list pyval) :
  all_positive values = Ok true -> Forall at_least_one values.
Proof.
  induction values as [|v rest IH]; simpl; intros H; [constructor|].
  bind_ok H. destruct (Z.eqb_spec a 0); [discriminate|].
  constructor; [|now apply IH].
  eapply check_positive_scalar_nonzero; eassumption.
Qed.


Lemma check_valid_pad_dict_inv (dic d : pyval) :
  check_valid_pad_dict dic = Ok d ->
  d = dic
  /\ exists items,
       dic = VDict items
       /\ List.length items = 4%nat
       /\ (forall s, In s (map fst items) <-> In s valid_keys)
       /\ Forall at_least_one (map snd items).
Proof.
  unfold check_valid_pad_dict. intros H.
  bind_ok H. bind_ok H. bind_ok H. bind_ok H.
  destruct (forallb _ _) eqn:Hall; simpl in H; [|discriminate].
  inversion H; subst d. split; [reflexivity|].
  simpl in Hall. rewrite !andb_true_iff in Hall.
  destruct Hall as (Hd & Hn & Hk & Hp & _).
  destruct dic as [| | | | |items]; try discriminate.
  simpl in E, E0, E1. inversion E; inversion E0; inversion E1; subst.
  exists items. split; [reflexivity|].
  split; [apply Z.eqb_eq in Hn; lia|].
  split; [now apply same_set_spec|].
  apply all_positive_true. now rewrite E2.
Qed.

(** A dictionary that passes [check_valid_pad_dict] is returned as it is;
    it has four items, its keys are the four padding names, and each of
    its values is a number that is at least one. *)
Theorem check_valid_pad_dict_accepts (dic d : pyval) :
  check_valid_pad_dict dic = Ok d ->
  d = dic
  /\ exists items,
       dic = VDict items
       /\ List.length items = 4%nat
       /\ (forall s, In s (map fst items) <-> In s valid_keys)
       /\ Forall at_least_one (map snd items).
Proof. exact (check_valid_pad_dict_inv dic d). Qed.

Lemma check_valid_pad_dict_accepts_witness :
  uniform_dict 50 = uniform_dict 50
  /\ exists items,
       uniform_dict 50 = VDict items
       /\ List.length items = 4%nat
       /\ (forall s, In s (map fst items) <-> In s valid_keys)
       /\ Forall at_least_one (map snd items).
Proof.
  apply (check_valid_pad_dict_accepts (uniform_dict 50) (uniform_dict 50)).
  reflexivity.
Defined.

(** [None], a [bool], an [int] or a [float] makes [check_valid_pad_dict]
    raise [TypeError], from [len], and a string makes it raise
    [AttributeError], from [keys]: none of them meets the [ValueError] of
    the function's docstring. *)
Theorem check_valid_pad_dict_not_a_dict :
  check_valid_pad_dict VNone = Raise TypeError
  /\ (forall b, check_valid_pad_dict (VBool b) = Raise TypeError)
  /\ (forall z, check_valid_pad_dict (VInt z) = Raise TypeError)
  /\ (forall q, check_valid_pad_dict (VFloat q) = Raise TypeError)
  /\ (forall s, check_valid_pad_dict (VStr s) = Raise AttributeError).
Proof. repeat split. Qed.

Lemma all_positive_ints (l : list (string * Z)) :
  all_positive (map snd (map (fun kz => (fst kz, VInt (snd kz))) l))
  = if forallb (fun kz => 0 <? snd kz) l then Ok true else Raise ValueError.
Proof.
  induction l as [|[k z] rest IH]; simpl; [reflexivity|].
  rewrite check_positive_scalar_int.
  destruct (Z.ltb_spec 0 z); cbn [bind]; [|reflexivity].
  destruct (Z.eqb_spec z 0); [lia|]. exact IH.
Qed.

Lemma check_valid_pad_dict_ints (l : list (string * Z)) :
  check_valid_pad_dict (int_dict l)
  = if Nat.eqb (List.length l) 4
       && same_set (map fst l) valid_keys
       && forallb (fun kz => 0 <? snd kz) l
    then Ok (int_dict l) else Raise ValueError.
Proof.
  unfold check_valid_pad_dict, int_dict.
  cbn [isinstance_dict py_len dict_keys dict_values bind].
  rewrite all_positive_ints, !length_map, map_map. cbn [fst].
  replace (Z.of_nat (List.length l) =? 4) with (Nat.eqb (List.length l) 4).
  2:{ destruct (Nat.eqb_spec (List.length l) 4) as [-> | Hn];
        [reflexivity|].
      symmetry. apply Z.eqb_neq. lia. }
  destruct (forallb (fun kz => 0 <? snd kz) l); cbn [bind].
  - cbn [forallb]. rewrite !andb_true_r. cbn [andb].
    destruct (Nat.eqb _ 4 && same_set _ valid_keys); reflexivity.
  - rewrite !andb_false_r. reflexivity.
Qed.

(** On a dictionary whose values are integers, [check_valid_pad_dict]
    returns the dictionary when it has four items, its keys are the four
    padding names and every value is positive, and raises [ValueError]
    otherwise. *)
Theorem check_valid_pad_dict_int_dict (l : list (string * Z)) :
  check_valid_pad_dict (int_dict l)
  = if Nat.eqb (List.length l) 4
       && same_set (map fst l) valid_keys
       && forallb (fun kz => 0 <? snd kz) l
    then Ok (int_dict l) else Raise ValueError.
Proof. exact (check_valid_pad_dict_ints l). Qed.

Lemma positive_quotient (a b : Q) : (0 < a)%Q -> (0 < b)%Q -> (0 < a / b)%Q.
Proof.
  intros Ha Hb. unfold Qdiv.
  apply Qmult_lt_0_compat; [exact Ha | now apply Qinv_lt_0_compat].
Qed.

Lemma truediv_positive (a b : Q) :
  (0 < b)%Q -> truediv a b = Ok (a / b)%Q.
Proof.
  intros Hb. unfold truediv.
  destruct (Qeq_bool b 0) eqn:E; [|reflexivity].
  apply Qeq_bool_iff in E. rewrite E in Hb.
  exfalso. exact (Qlt_irrefl 0 Hb).
Qed.

Lemma subscript_validated (dic d : pyval) (key : string) :
  check_valid_pad_dict dic = Ok d -> In key valid_keys ->
  exists v, subscript d key = Ok v /\ at_least_one v
            /\ forall items, dic = VDict items -> In (key, v) items.
Proof.
  intros H Hkey.
  destruct (check_valid_pad_dict_inv dic d H)
    as (-> & items & -> & _ & Hkeys & Hvals).
  destruct (getitem_key items key (proj2 (Hkeys key) Hkey)) as [v Hv].
  exists v. simpl. rewrite Hv. split; [reflexivity|].
  pose proof (getitem_In items key v Hv) as Hin.
  split.
  - rewrite Forall_forall in Hvals. apply Hvals.
    change v with (snd (key, v)). now apply in_map.
  - intros items' Heq. inversion Heq; subst. exact Hin.
Qed.

(** What a successful construction stores, in the embedding (the aspect
    ratio as the exact quotient). *)
Lemma Cropper_init_Ok (a : init_args) (c : Cropper) :
  Cropper_init a = Ok c ->
  exists hq wq fq,
    as_number (arg_height a) = Ok hq /\ (0 < hq)%Q
    /\ as_number (arg_width a) = Ok wq /\ (0 < wq)%Q
    /\ as_number (arg_face_percent a) = Ok fq
    /\ (0 < fq)%Q /\ (fq <= 100)%Q
    /\ height c = Qtrunc hq /\ width c = Qtrunc wq
    /\ aspect_ratio c = (wq / hq)%Q
    /\ face_percent c = Qtrunc fq
    /\ gamma c = arg_fix_gamma a /\ portrait c = arg_portrait a
    /\ at_least_one (pad_top c) /\ at_least_one (pad_right c)
    /\ at_least_one (pad_bottom c) /\ at_least_one (pad_left c)
    /\ (forall items, arg_padding a = VDict items ->
        In ("pad_top", pad_top c) items
        /\ In ("pad_right", pad_right c) items
        /\ In ("pad_bottom", pad_bottom c) items
        /\ In ("pad_left", pad_left c) items).
Proof.
  unfold Cropper_init. intros H.
  destruct (check_positive_scalar (arg_height a)) as [kh|] eqn:Eh;
    cbn [bind] in H; [|discriminate].
  destruct (check_positive_scalar (arg_width a)) as [kw|] eqn:Ew;
    cbn [bind] in H; [|discriminate].
  destruct (check_positive_scalar_inv _ _ Eh) as (hq & Hhq & Hh0 & _).
  destruct (check_positive_scalar_inv _ _ Ew) as (wq & Hwq & Hw0 & _).
  rewrite Hwq, Hhq in H. cbn [bind] in H.
  rewrite (truediv_positive wq hq Hh0) in H. cbn [bind] in H.
  unfold gt_int in H.
  destruct (as_number (arg_face_percent a)) as [fq|] eqn:Hfq;
    cbn [bind] in H; [|discriminate].
  destruct (Qgtb fq (inject_Z 100)) eqn:Hbig; [discriminate|].
  apply Qgtb_false in Hbig.
  destruct (check_positive_scalar (arg_face_percent a)) as [kf|] eqn:Ef;
    cbn [bind] in H; [|discriminate].
  rewrite (check_positive_scalar_number _ _ Hhq) in Eh.
  rewrite (check_positive_scalar_number _ _ Hwq) in Ew.
  rewrite (check_positive_scalar_number _ _ Hfq) in Ef.
  destruct (Qgtb hq 0); [|discriminate].
  destruct (Qgtb wq 0); [|discriminate].
  destruct (Qgtb fq 0) eqn:Hf0; [|discriminate].
  apply Qgtb_true in Hf0.
  inversion Eh; inversion Ew; inversion Ef; subst kh kw kf.
  exists hq, wq, fq.
  destruct (isinstance_int (arg_padding a)) eqn:Hint.
  - destruct (check_positive_scalar (arg_padding a)) as [p|] eqn:Ep;
      cbn [bind] in H; [|discriminate].
    inversion H; subst c; cbn.
    assert (Hp : at_least_one (VInt p)).
    { destruct (check_positive_scalar_inv _ _ Ep)
        as (q & Hq & Hq0 & Hp0 & Hlo & Hhi & _).
      exists (inject_Z p). split; [reflexivity|].
      change 1%Q with (inject_Z 1). rewrite <- Zle_Qle.
      assert (Hlt : (inject_Z 0 < inject_Z (p + 1))%Q)
        by (eapply Qlt_trans; eassumption).
      rewrite <- Zlt_Qlt in Hlt.
      destruct (Z.eq_dec p 0) as [-> | Hne]; [|lia].
      assert (Hn : exists n, q = inject_Z n).
      { destruct (arg_padding a); simpl in Hint, Hq; try discriminate;
          inversion Hq; eexists; reflexivity. }
      destruct Hn as [n ->].
      change 0%Q with (inject_Z 0) in Hq0.
      rewrite <- Zlt_Qlt in Hq0, Hhi. lia. }
    repeat split; auto.
    all: intros; destruct (arg_padding a); simpl in Hint; discriminate.
  - destruct (check_valid_pad_dict (arg_padding a)) as [pad|] eqn:Ed;
      cbn [bind] in H; [|discriminate].
    destruct (subscript_validated _ _ "pad_top" Ed)
      as (t & Ht & Ht1 & Ht2); [simpl; tauto|].
    destruct (subscript_validated _ _ "pad_right" Ed)
      as (r & Hr & Hr1 & Hr2); [simpl; tauto|].
    destruct (subscript_validated _ _ "pad_bottom" Ed)
      as (b & Hb & Hb1 & Hb2); [simpl; tauto|].
    destruct (subscript_validated _ _ "pad_left" Ed)
      as (l & Hl & Hl1 & Hl2); [simpl; tauto|].
    rewrite Ht, Hr, Hb, Hl in H. cbn [bind] in H.
    inversion H; subst c; cbn.
    repeat split; auto.
Qed.

(** Every engine that [Cropper(...)] constructs has sizes that are not
    negative, a face percent between 0 and 100 (0 included: the integer
    part of an argument below one), and four paddings that are numbers of
    at least one. *)
Theorem Cropper_init_invariants (a : init_args) (c : Cropper) :
  Cropper_init a = Ok c ->
  0 <= height c /\ 0 <= width c
  /\ 0 <= face_percent c <= 100
  /\ at_least_one (pad_top c) /\ at_least_one (pad_right c)
  /\ at_least_one (pad_bottom c) /\ at_least_one (pad_left c).
Proof.
  intros H.
  destruct (Cropper_init_Ok a c H)
    as (hq & wq & fq & _ & Hh & _ & Hw & _ & Hf0 & Hf100
        & -> & -> & _ & -> & _ & _ & Ht & Hr & Hb & Hl & _).
  destruct (Qtrunc_bounds hq (Qlt_le_weak _ _ Hh)) as (Hh0 & _).
  destruct (Qtrunc_bounds wq (Qlt_le_weak _ _ Hw)) as (Hw0 & _).
  destruct (Qtrunc_bounds fq (Qlt_le_weak _ _ Hf0)) as (Hk0 & Hklo & _).
  repeat split; auto.
  rewrite Zle_Qle. eapply Qle_trans; eassumption.
Qed.

Lemma Cropper_init_invariants_witness :
  0 <= height square_cropper /\ 0 <= width square_cropper
  /\ 0 <= face_percent square_cropper <= 100
  /\ at_least_one (pad_top square_cropper)
  /\ at_least_one (pad_right square_cropper)
  /\ at_least_one (pad_bottom square_cropper)
  /\ at_least_one (pad_left square_cropper).
Proof.
  apply (Cropper_init_invariants (int_args 500 500 50 50) square_cropper).
  reflexivity.
Defined.



(** When the padding argument is a dictionary, the engine stores under
    each padding name the value the dictionary lists for that key, as it
    is and whatever the order of the items. *)
Theorem Cropper_init_stores_dict_values
    (a : init_args) (c : Cropper) (items : list (string * pyval)) :
  Cropper_init a = Ok c ->
  arg_padding a = VDict items ->
  In ("pad_top", pad_top c) items
  /\ In ("pad_right", pad_right c) items
  /\ In ("pad_bottom", pad_bottom c) items
  /\ In ("pad_left", pad_left c) items.
Proof.
  intros H Hitems.
  destruct (Cropper_init_Ok a c H)
    as (hq & wq & fq & _ & _ & _ & _ & _ & _ & _
        & _ & _ & _ & _ & _ & _ & _ & _ & _ & _ & Hd).
  exact (Hd items Hitems).
Qed.

Lemma Cropper_init_stores_dict_values_witness :
  let items := [("pad_left", VInt 40); ("pad_bottom", VFloat (5 # 2));
                ("pad_top", VInt 10); ("pad_right", VInt 20)] in
  let c := mkCropper 500 500 (inject_Z 500 / inject_Z 500) (VBool true)
             (VBool true) 50 (VInt 10) (VInt 20) (VFloat (5 # 2))
             (VInt 40) in
  In ("pad_top", pad_top c) items
  /\ In ("pad_right", pad_right c) items
  /\ In ("pad_bottom", pad_bottom c) items
  /\ In ("pad_left", pad_left c) items.
Proof.
  intros items c.
  apply (Cropper_init_stores_dict_values
           (with_padding (int_args 500 500 50 50) (VDict items)) c items);
    reflexivity.
Defined.





(** A uniform integer padding and the dictionary that gives the same
    integer to the four padding names construct the same engine, or fail
    with the same error, whatever the other arguments. *)
Theorem Cropper_init_uniform_padding (a : init_args) (p : Z) :
  Cropper_init (with_padding a (VInt p))
  = Cropper_init (with_padding a (uniform_dict p)).
Proof.
  unfold Cropper_init, with_padding. cbn [arg_width arg_height
    arg_face_percent arg_padding arg_fix_gamma arg_portrait].
  destruct (check_positive_scalar (arg_height a)); cbn [bind];
    [|reflexivity].
  destruct (check_positive_scalar (arg_width a)); cbn [bind];
    [|reflexivity].
  destruct (as_number (arg_width a)); cbn [bind]; [|reflexivity].
  destruct (as_number (arg_height a)); cbn [bind]; [|reflexivity].
  destruct (truediv _ _); cbn [bind]; [|reflexivity].
  destruct (gt_int (arg_face_percent a) 100) as [[|]|]; cbn [bind];
    try reflexivity.
  destruct (check_positive_scalar (arg_face_percent a)); cbn [bind];
    [|reflexivity].
  change (isinstance_int (uniform_dict p)) with false.
  change (isinstance_int (VInt p)) with true. cbv iota.
  unfold uniform_dict.
  rewrite check_valid_pad_dict_ints, check_positive_scalar_int.
  cbn [List.length Nat.eqb map fst snd forallb andb].
  change (same_set _ valid_keys) with true. cbn [andb].
  rewrite !andb_true_r.
  destruct (0 <? p); reflexivity.
Qed.

(** ** Further properties of the driver *)

Section DriverMore.

Variable EYES_RATIO : Q.
Variables CV2_FILETYPES PILLOW_FILETYPES : list string.
Variable ndarray : Type.
Variable shape : ndarray -> list Z.
Variable splitext_lower : string -> string.
Variable cv2_imread : string -> option ndarray.
Variable pil_open : string -> result ndarray.
Variable cv2_cvtColor : pyobj ndarray -> result ndarray.
Variable minface_of : Z -> Z -> Z.
Variable detectMultiScale :
  pyobj ndarray -> Z -> result (list (Z * Z * Z * Z)).
Variable slice2 : ndarray -> Z -> Z -> Z -> Z -> ndarray.
Variable cv2_resize : ndarray -> Z -> Z -> result ndarray.
Variable check_underexposed : ndarray -> pyobj ndarray -> result ndarray.
Variable bgr_to_rbg : ndarray -> ndarray.

Let load := load_image CV2_FILETYPES PILLOW_FILETYPES ndarray
              splitext_lower cv2_imread pil_open.
Let gray_of := to_gray ndarray cv2_cvtColor.
Let extent := image_extent ndarray shape.
Let run := crop EYES_RATIO CV2_FILETYPES PILLOW_FILETYPES ndarray shape
             splitext_lower cv2_imread pil_open cv2_cvtColor
             minface_of detectMultiScale slice2 cv2_resize
             check_underexposed bgr_to_rbg.

(** When the detector returns at least one box, [crop], in the module's
    own namespace, raises [NameError]. *)
Theorem crop_face_found_raises
    (self : Cropper) (path_or_array image gray : pyobj ndarray)
    (img_height img_width : Z) (faces : list (Z * Z * Z * Z)) :
  load path_or_array = Ok image ->
  gray_of image = Ok gray ->
  extent image = Ok (img_height, img_width) ->
  detectMultiScale gray (minface_of img_height img_width) = Ok faces ->
  faces <> [] ->
  run module_namespace self path_or_array = Raise NameError.
Proof.
  intros Hload Hgray Hextent Hfaces Hne.
  subst run load gray_of extent. unfold crop, crop_with.
  rewrite Hload. cbn [bind]. rewrite Hgray. cbn [bind].
  rewrite Hextent. cbn [bind]. rewrite Hfaces. cbn [bind].
  destruct faces as [|f rest]; [contradiction|].
  cbn [List.length Nat.eqb].
  destruct (last (f :: rest) (0, 0, 0, 0)) as [[[x y] w] h].
  reflexivity.
Qed.

(** In the module's own namespace [crop] never returns a cropped image:
    whatever the argument, the engine and the collaborators, it returns
    [None] or raises. *)
Theorem crop_never_returns_image
    (self : Cropper) (path_or_array : pyobj ndarray) (cropped : ndarray) :
  run module_namespace self path_or_array <> Ok (Some cropped).
Proof.
  subst run. unfold crop, crop_with.
  destruct (load_image _ _ _ _ _ _ path_or_array) as [image|];
    cbn [bind]; [|discriminate].
  destruct (to_gray _ _ image) as [gray|]; cbn [bind]; [|discriminate].
  destruct (image_extent _ _ image) as [[ih iw]|]; cbn [bind];
    [|discriminate].
  destruct (detectMultiScale gray (minface_of ih iw)) as [faces|];
    cbn [bind]; [|discriminate].
  destruct (Nat.eqb (List.length faces) 0); [discriminate|].
  destruct (last faces (0, 0, 0, 0)) as [[[x y] w] h].
  discriminate.
Qed.

(** An array with fewer than two dimensions makes [crop] raise
    [ValueError] (from the unpacking of its shape), not
    [ImageReadError], when the gray-scale conversion fails, if at all,
    with [cv2.error]. *)
Theorem crop_flat_array_raises
    (G : namespace) (self : Cropper) (a : ndarray) :
  (List.length (shape a) < 2)%nat ->
  (forall e, cv2_cvtColor (Arr a) = Raise e -> e = cv2_error) ->
  run G self (Arr a) = Raise ValueError.
Proof.
  intros Hdim Hcv. subst run. unfold crop, crop_with.
  cbn [load_image bind]. unfold to_gray.
  assert (Hext : image_extent ndarray shape (Arr a) = Raise ValueError).
  { unfold image_extent. cbn [getattr_shape bind]. unfold unpack2.
    destruct (shape a) as [|s0 [|s1 rest]]; simpl in Hdim;
      [reflexivity | reflexivity | lia]. }
  destruct (cv2_cvtColor (Arr a)) as [g|e] eqn:Hg; cbn [bind try_except].
  - rewrite Hext. reflexivity.
  - rewrite (Hcv e eq_refl). cbn. rewrite Hext. reflexivity.
Qed.

(** A path whose extension only [PIL] handles and that [PIL] fails to
    open makes [crop] raise the error of [PIL], neither [ImageReadError]
    nor a [None] result. *)
Theorem crop_pil_error_propagates
    (G : namespace) (self : Cropper) (path : string) (e : exc) :
  mem_str (splitext_lower path) CV2_FILETYPES = false ->
  mem_str (splitext_lower path) PILLOW_FILETYPES = true ->
  pil_open path = Raise e ->
  run G self (Val (VStr path)) = Raise e.
Proof.
  intros Hcv Hpil Herr. subst run. unfold crop, crop_with.
  cbn [load_image]. unfold open_file.
  rewrite Hcv, Hpil, Herr. reflexivity.
Qed.

(** A path makes [crop] raise [ImageReadError] when its extension is a
    [cv2] one and [cv2.imread] cannot decode the file (there is no second
    try with [PIL], even for an extension in both lists), or when its
    extension is in neither list; the gray-scale conversion of [None] is
    taken to fail, if at all, with [cv2.error]. *)
Theorem crop_path_not_decoded
    (G : namespace) (self : Cropper) (path : string) :
  (mem_str (splitext_lower path) CV2_FILETYPES = true
   /\ cv2_imread path = None)
  \/ (mem_str (splitext_lower path) CV2_FILETYPES = false
      /\ mem_str (splitext_lower path) PILLOW_FILETYPES = false) ->
  (forall e, cv2_cvtColor (Val VNone) = Raise e -> e = cv2_error) ->
  run G self (Val (VStr path)) = Raise ImageReadError.
Proof.
  intros Hpath Hcv.
  assert (Hload : load (Val (VStr path)) = Ok (Val VNone)).
  { subst load. cbn [load_image]. unfold open_file.
    destruct Hpath as [[-> ->] | [-> ->]]; reflexivity. }
  subst run load. unfold crop, crop_with.
  rewrite Hload. cbn [bind]. unfold to_gray.
  destruct (cv2_cvtColor (Val VNone)) as [g|e] eqn:Hg; cbn [bind].
  - reflexivity.
  - rewrite (Hcv e eq_refl). reflexivity.
Qed.

End DriverMore.

Lemma crop_face_found_raises_witness :
  crop Sample.EYES_RATIO Sample.CV2_FILETYPES Sample.PILLOW_FILETYPES
    Sample.ndarray Sample.shape Sample.splitext_lower Sample.cv2_imread
    Sample.pil_open Sample.cv2_cvtColor Sample.minface_of
    Sample2.detectMultiScale Sample.slice2 Sample.cv2_resize
    Sample.check_underexposed Sample.bgr_to_rbg module_namespace
    square_cropper (Arr [1000; 1000; 3])
  = Raise NameError.
Proof.
  apply (crop_face_found_raises Sample.EYES_RATIO Sample.CV2_FILETYPES
           Sample.PILLOW_FILETYPES Sample.ndarray Sample.shape
           Sample.splitext_lower Sample.cv2_imread Sample.pil_open
           Sample.cv2_cvtColor Sample.minface_of Sample2.detectMultiScale
           Sample.slice2 Sample.cv2_resize Sample.check_underexposed
           Sample.bgr_to_rbg square_cropper
           (Arr [1000; 1000; 3]) (Arr [1000; 1000; 3]) (Arr [1000; 1000])
           1000 1000 [(400, 400, 200, 200)]);
    try reflexivity.
  discriminate.
Defined.

Lemma crop_flat_array_raises_witness :
  crop Sample.EYES_RATIO Sample.CV2_FILETYPES Sample.PILLOW_FILETYPES
    Sample.ndarray Sample.shape Sample.splitext_lower Sample.cv2_imread
    Sample.pil_open Sample.cv2_cvtColor Sample.minface_of
    Sample.detectMultiScale Sample.slice2 Sample.cv2_resize
    Sample.check_underexposed Sample.bgr_to_rbg module_namespace
    square_cropper (Arr [1000])
  = Raise ValueError.
Proof.
  apply (crop_flat_array_raises Sample.EYES_RATIO Sample.CV2_FILETYPES
           Sample.PILLOW_FILETYPES Sample.ndarray Sample.shape
           Sample.splitext_lower Sample.cv2_imread Sample.pil_open
           Sample.cv2_cvtColor Sample.minface_of Sample.detectMultiScale
           Sample.slice2 Sample.cv2_resize Sample.check_underexposed
           Sample.bgr_to_rbg module_namespace square_cropper [1000]).
  - simpl. lia.
  - intros e H. simpl in H. discriminate H.
Defined.

Lemma crop_pil_error_propagates_witness :
  crop Sample.EYES_RATIO Sample.CV2_FILETYPES Sample.PILLOW_FILETYPES
    Sample.ndarray Sample.shape Sample2.splitext_lower Sample.cv2_imread
    Sample.pil_open Sample.cv2_cvtColor Sample.minface_of
    Sample.detectMultiScale Sample.slice2 Sample.cv2_resize
    Sample.check_underexposed Sample.bgr_to_rbg module_namespace
    square_cropper (Val (VStr "torn.gif"))
  = Raise OSError.
Proof.
  apply (crop_pil_error_propagates Sample.EYES_RATIO Sample.CV2_FILETYPES
           Sample.PILLOW_FILETYPES Sample.ndarray Sample.shape
           Sample2.splitext_lower Sample.cv2_imread Sample.pil_open
           Sample.cv2_cvtColor Sample.minface_of Sample.detectMultiScale
           Sample.slice2 Sample.cv2_resize Sample.check_underexposed
           Sample.bgr_to_rbg module_namespace square_cropper "torn.gif"
           OSError);
    reflexivity.
Defined.

Lemma crop_path_not_decoded_witness :
  crop Sample.EYES_RATIO Sample.CV2_FILETYPES Sample.PILLOW_FILETYPES
    Sample.ndarray Sample.shape Sample.splitext_lower Sample.cv2_imread
    Sample.pil_open Sample.cv2_cvtColor Sample.minface_of
    Sample.detectMultiScale Sample.slice2 Sample.cv2_resize
    Sample.check_underexposed Sample.bgr_to_rbg module_namespace
    square_cropper (Val (VStr "torn.jpg"))
  = Raise ImageReadError.
Proof.
  apply (crop_path_not_decoded Sample.EYES_RATIO Sample.CV2_FILETYPES
           Sample.PILLOW_FILETYPES Sample.ndarray Sample.shape
           Sample.splitext_lower Sample.cv2_imread Sample.pil_open
           Sample.cv2_cvtColor Sample.minface_of Sample.detectMultiScale
           Sample.slice2 Sample.cv2_resize Sample.check_underexposed
           Sample.bgr_to_rbg module_namespace square_cropper "torn.jpg").
  - left. split; reflexivity.
  - intros e H. simpl in H. inversion H. reflexivity.
Defined.

(** ** Further properties of the orchestrator *)

Lemma portrait_pass_exact
    (EYES_RATIO : Q) (self : Cropper) (G : namespace) (x y w h : Z) :
  portrait_pass EYES_RATIO self G x y w h
  = portrait_pass_with EYES_RATIO exact_int_div_ratio self G x y w h.
Proof. reflexivity. Qed.

(** Whatever the module namespace binds and whatever
    [int(n / self.aspect_ratio)] computes, the portrait branch returns
    only when the first horizontal pass and the vertical pass both report
    met expectations: a clamped interval always ends in the failed
    [assert].  The expected height is then [int(w / self.aspect_ratio)],
    taken from the width of the face, and the list returned is
    [[h1; h2; v1; v2]]. *)
Theorem portrait_branch_returns
    (EYES_RATIO : Q) (int_div_ratio : Cropper -> Z -> result Z)
    (self : Cropper) (G : namespace) (x y w h : Z)
    (r : option (list Z)) :
  portrait_branch_with EYES_RATIO int_div_ratio self G x y w h = Ok r ->
  exists imgw imgh expected_height h1 h2 v1 v2,
    g_imgw G = Some imgw /\ g_imgh G = Some imgh
    /\ _expand_centered self x w imgw None = Ok (h1, h2, true)
    /\ int_div_ratio self w = Ok expected_height
    /\ _expand_portrait EYES_RATIO y h imgh expected_height
       = Ok (v1, v2, true)
    /\ r = Some [h1; h2; v1; v2].
Proof.
  unfold portrait_branch_with, portrait_pass_with. intros H.
  destruct (g_imgw G) as [imgw|]; cbn [load_global bind] in H;
    [|discriminate].
  destruct (_expand_centered self x w imgw None) as [[[h1 h2] uw]|] eqn:Hc;
    cbn [bind] in H; [|discriminate].
  destruct uw; cbn [negb] in H.
  - destruct (int_div_ratio self w) as [eh|] eqn:Hd; cbn [bind] in H;
      [|discriminate].
    destruct (g_imgh G) as [imgh|]; cbn [load_global bind] in H;
      [|discriminate].
    destruct (_expand_portrait EYES_RATIO y h imgh eh)
      as [[[v1 v2] uh]|] eqn:Hp; cbn [bind] in H; [|discriminate].
    destruct uh; cbn [negb] in H.
    + cbn in H. inversion H; subst r.
      exists imgw, imgh, eh, h1, h2, v1, v2. repeat split; auto.
    + destruct (_expand_centered self x w imgw (Some 0))
        as [[[h1' h2'] uw']|]; cbn [bind] in H; [|discriminate].
      cbn in H. rewrite andb_false_r in H. discriminate.
  - destruct (int_div_ratio self (h2 - h1)) as [eh|]; cbn [bind] in H;
      [|discriminate].
    destruct (g_imgh G) as [imgh|]; cbn [load_global bind] in H;
      [|discriminate].
    destruct (_expand_portrait EYES_RATIO y h imgh eh)
      as [[[v1 v2] uh]|]; cbn [bind] in H; [|discriminate].
    destruct uh; cbn [negb] in H.
    + cbn in H. discriminate.
    + destruct (_expand_centered self x w imgw (Some 0))
        as [[[h1' h2'] uw']|]; cbn [bind] in H; [|discriminate].
      cbn in H. rewrite andb_false_r in H. discriminate.
Qed.

Lemma portrait_branch_returns_witness :
  exists imgw imgh expected_height h1 h2 v1 v2,
    g_imgw (bound_namespace wide_cropper 1000 1000) = Some imgw
    /\ g_imgh (bound_namespace wide_cropper 1000 1000) = Some imgh
    /\ _expand_centered wide_cropper 400 200 imgw None = Ok (h1, h2, true)
    /\ Ok (Z.quot 200 2) = Ok expected_height
    /\ _expand_portrait Sample.EYES_RATIO 400 200 imgh expected_height
       = Ok (v1, v2, true)
    /\ Some [498; 502; 418; 517] = Some [h1; h2; v1; v2].
Proof.
  apply (portrait_branch_returns Sample.EYES_RATIO
           (fun _ n => Ok (Z.quot n 2)) wide_cropper
           (bound_namespace wide_cropper 1000 1000) 400 400 200 200
           (Some [498; 502; 418; 517])).
  reflexivity.
Defined.

(** A face in the corner of a 300 x 400 image, with the free names
    bound: the centered branch shrinks the padded rectangle back to the
    face box. *)
Example centered_branch_corner_face :
  centered_branch square_cropper (bound_namespace square_cropper 300 400)
    300 400 0 0 200 200
  = Ok (Some [0; 200; 0; 200]).
Proof. reflexivity. Qed.

(** ** The raster helpers *)

Lemma flip_last_involutive (k : nat) (img : Raster.nd (S k)) :
  Raster.flip_last k (Raster.flip_last k img) = img.
Proof.
  induction k as [|j IH]; cbn [Raster.flip_last].
  - apply rev_involutive.
  - rewrite map_map. rewrite <- (map_id img) at 2.
    apply map_ext. exact IH.
Qed.

(** On an array that has at least one dimension [bgr_to_rbg] returns, and
    applied to its own result it gives the array back: the channel swap
    undoes itself (an array of one dimension is returned as it is). *)
Theorem bgr_to_rbg_involution (k : nat) (img : Raster.nd (S k)) :
  (out <- Raster.bgr_to_rbg (S k) img ;; Raster.bgr_to_rbg (S k) out)
  = Ok img.
Proof.
  destruct k as [|j]; cbn [Raster.bgr_to_rbg bind]; [reflexivity|].
  now rewrite flip_last_involutive.
Qed.

Example bgr_to_rbg_pixels :
  Raster.bgr_to_rbg 3 [[[1; 2; 3]; [4; 5; 6]]; [[7; 8; 9]; [10; 11; 12]]]
  = Ok [[[3; 2; 1]; [6; 5; 4]]; [[9; 8; 7]; [12; 11; 10]]].
Proof. reflexivity. Qed.

Lemma py_sum_from (l : list Q) (a : Q) :
  (fold_left Qplus l a == a + Raster.py_sum l)%Q.
Proof.
  unfold Raster.py_sum. revert a.
  induction l as [|x rest IH]; intros a; simpl; [lra|].
  rewrite (IH (a + x)%Q), (IH (0 + x)%Q). lra.
Qed.

Lemma py_sum_app (l1 l2 : list Q) :
  (Raster.py_sum (l1 ++ l2)%list == Raster.py_sum l1 + Raster.py_sum l2)%Q.
Proof.
  unfold Raster.py_sum at 1. rewrite fold_left_app.
  rewrite py_sum_from. reflexivity.
Qed.

Lemma py_sum_zero (l : list Q) :
  Forall (fun c => c == 0)%Q l -> (Raster.py_sum l == 0)%Q.
Proof.
  induction 1 as [|x rest Hx _ IH]; [reflexivity|].
  change (x :: rest) with (([x] ++ rest)%list). rewrite py_sum_app, IH.
  unfold Raster.py_sum. simpl. lra.
Qed.

Lemma py_sum_nonneg (l : list Q) :
  Forall (fun c => 0 <= c)%Q l -> (0 <= Raster.py_sum l)%Q.
Proof.
  induction 1 as [|x rest Hx _ IH]; [unfold Raster.py_sum; simpl; lra|].
  change (x :: rest) with (([x] ++ rest)%list). rewrite py_sum_app.
  unfold Raster.py_sum at 1. simpl. lra.
Qed.

Lemma py_sum_split (n : nat) (l : list Q) :
  (Raster.py_sum l
   == Raster.py_sum (firstn (List.length l - n) l)
      + Raster.py_sum (Raster.last_n n l))%Q.
Proof.
  unfold Raster.last_n. rewrite <- py_sum_app, firstn_skipn. reflexivity.
Qed.

Section ExposureFacts.

Variables GAMMA_THRES GAMMA : Q.
Variables image gray_image : Type.
Variable calcHist : gray_image -> list Q.
Variable gamma : image -> Q -> image.

Let check := Raster.check_underexposed GAMMA_THRES GAMMA image gray_image
               calcHist gamma.

(** With a positive threshold, an image that has pixels but none at the
    26 brightest levels is gamma-corrected. *)
Theorem check_underexposed_dark (img : image) (gray : gray_image) :
  (0 < GAMMA_THRES)%Q ->
  (0 < Raster.py_sum (calcHist gray))%Q ->
  Forall (fun c => c == 0)%Q (Raster.last_n 26 (calcHist gray)) ->
  check img gray = gamma img GAMMA.
Proof.
  intros Ht Hsum Hdark. subst check. unfold Raster.check_underexposed.
  destruct (Qgtb _ _) eqn:E; [reflexivity|].
  apply Qgtb_false in E. rewrite (py_sum_zero _ Hdark) in E.
  assert (0 < GAMMA_THRES * Raster.py_sum (calcHist gray))%Q
    by (apply Qmult_lt_0_compat; assumption).
  lra.
Qed.

(** With a threshold of at most one, an image whose pixels are all at the
    26 brightest levels is returned as it is. *)
Theorem check_underexposed_bright (img : image) (gray : gray_image) :
  (GAMMA_THRES <= 1)%Q ->
  Forall (fun c => 0 <= c)%Q (calcHist gray) ->
  Forall (fun c => c == 0)%Q
    (firstn (List.length (calcHist gray) - 26) (calcHist gray)) ->
  check img gray = img.
Proof.
  intros Ht Hcounts Hrest. subst check. unfold Raster.check_underexposed.
  destruct (Qgtb _ _) eqn:E; [|reflexivity].
  apply Qgtb_true in E.
  pose proof (py_sum_split 26 (calcHist gray)) as Hsplit.
  rewrite (py_sum_zero _ Hrest) in Hsplit.
  pose proof (py_sum_nonneg _ Hcounts) as Hnn.
  assert (GAMMA_THRES * Raster.py_sum (calcHist gray)
          <= 1 * Raster.py_sum (calcHist gray))%Q
    by (apply Qmult_le_compat_r; assumption).
  lra.
Qed.

End ExposureFacts.

Lemma check_underexposed_dark_witness :
  Raster.check_underexposed (1 # 1000) (9 # 10) Z (list Q)
    (fun hist => hist) (fun img correction => img + 1)
    7 (repeat 4%Q 230 ++ repeat 0%Q 26)%list
  = 7 + 1.
Proof.
  apply (check_underexposed_dark (1 # 1000) (9 # 10) Z (list Q)
           (fun hist => hist) (fun img correction => img + 1)
           7 (repeat 4%Q 230 ++ repeat 0%Q 26)%list).
  - reflexivity.
  - vm_compute. reflexivity.
  - vm_compute. repeat constructor.
Defined.

Lemma check_underexposed_bright_witness :
  Raster.check_underexposed (1 # 1000) (9 # 10) Z (list Q)
    (fun hist => hist) (fun img correction => img + 1)
    7 (repeat 0%Q 230 ++ repeat 4%Q 26)%list
  = 7.
Proof.
  apply (check_underexposed_bright (1 # 1000) (9 # 10) Z (list Q)
           (fun hist => hist) (fun img correction => img + 1)
           7 (repeat 0%Q 230 ++ repeat 4%Q 26)%list).
  - vm_compute. discriminate.
  - vm_compute. repeat constructor; discriminate.
  - vm_compute. repeat constructor.
Defined.
